(** * runner.ts: change detection and release publishing

    A shallow embedding of [shouldBuild] and [doBuild] from
    [src/runner.ts], together with the JavaScript primitives they rely on
    (insertion-ordered objects, [String.prototype.replace] with a string
    pattern, [endsWith], number-to-string conversion), and the properties
    of the build classification and of the publish step. *)

From Stdlib Require Import String Ascii List Bool Arith NArith ZArith Lia.
Import ListNotations.
Local Open Scope string_scope.
Local Open Scope list_scope.

Set Implicit Arguments.

(* ===================================================================== *)
(** ** JavaScript primitives *)
(* ===================================================================== *)

Module JS.

(** *** Objects used as maps

    A plain object with string keys, as [Object.entries] sees it: the own
    properties in insertion order (keys that are array indices, which
    come first in JavaScript, do not occur among build names, which are
    file paths).  Assigning to an existing key keeps the key's position;
    assigning to a new key appends it. *)

Definition obj (V : Type) : Type := list (string * V).

Fixpoint get {V} (o : obj V) (k : string) : option V :=
  match o with
  | [] => None
  | (k', v) :: o' => if String.eqb k' k then Some v else get o' k
  end.

Fixpoint set {V} (o : obj V) (k : string) (v : V) : obj V :=
  match o with
  | [] => [(k, v)]
  | (k', v') :: o' =>
      if String.eqb k' k then (k', v) :: o' else (k', v') :: set o' k v
  end.

Definition keys {V} (o : obj V) : list string := map fst o.

(** The keys of an object are pairwise distinct. *)
Definition wf {V} (o : obj V) : Prop := NoDup (keys o).
Definition values {V} (o : obj V) : list V := map snd o.
Definition entries {V} (o : obj V) : list (string * V) := o.

(** *** Strings *)

(** [strip_prefix p s] is [Some r] when [s = p ++ r]. *)
Fixpoint strip_prefix (p s : string) : option string :=
  match p with
  | EmptyString => Some s
  | String a p' =>
      match s with
      | EmptyString => None
      | String b s' => if Ascii.eqb a b then strip_prefix p' s' else None
      end
  end.

(** The text before and after the leftmost occurrence of [pat] in [s]
    (what [indexOf] locates), or [None] when [pat] does not occur. *)
Fixpoint split_first (pat s : string) : option (string * string) :=
  match strip_prefix pat s with
  | Some rest => Some (EmptyString, rest)
  | None =>
      match s with
      | EmptyString => None
      | String c s' =>
          match split_first pat s' with
          | Some (before, after) => Some (String c before, after)
          | None => None
          end
      end
  end.

Definition includes (s pat : string) : bool :=
  match split_first pat s with Some _ => true | None => false end.

(** GetSubstitution for a string pattern (no capture groups): in the
    replacement text [$$] stands for a dollar sign, [$&] for the matched
    text, [$`] for the text before the match and [$'] for the text after
    it; every other character, a lone dollar sign included, stands for
    itself. *)
Fixpoint getSubstitution (matched before after repl : string) : string :=
  match repl with
  | EmptyString => EmptyString
  | String c r =>
      if Ascii.eqb c "$" then
        match r with
        | EmptyString => String c EmptyString
        | String d r' =>
            if Ascii.eqb d "$" then String "$" (getSubstitution matched before after r')
            else if Ascii.eqb d "&" then matched ++ getSubstitution matched before after r'
            else if Ascii.eqb d "`" then before ++ getSubstitution matched before after r'
            else if Ascii.eqb d "'" then after ++ getSubstitution matched before after r'
            else String c (getSubstitution matched before after r)
        end
      else String c (getSubstitution matched before after r)
  end.

(** [s.replace(pat, repl)] with a string pattern: only the leftmost
    occurrence is replaced. *)
Definition replace (s pat repl : string) : string :=
  match split_first pat s with
  | None => s
  | Some (before, after) => before ++ getSubstitution pat before after repl ++ after
  end.

Fixpoint rev_string (s acc : string) : string :=
  match s with
  | EmptyString => acc
  | String c s' => rev_string s' (String c acc)
  end.

Definition endsWith (s suffix : string) : bool :=
  match strip_prefix (rev_string suffix EmptyString) (rev_string s EmptyString) with
  | Some _ => true
  | None => false
  end.

(** *** Numbers to strings *)

Definition digit_char (d : N) : ascii := ascii_of_N (48 + d).

(** Decimal digits of [n], most significant first, pushed in front of
    [acc]; [fuel] bounds the number of digits. *)
Fixpoint digits_onto (fuel : nat) (n : N) (acc : string) : string :=
  match fuel with
  | O => acc
  | S fuel' =>
      let acc' := String (digit_char (n mod 10)) acc in
      if (n / 10 =? 0)%N then acc' else digits_onto fuel' (n / 10) acc'
  end.

Definition N_toString (n : N) : string :=
  digits_onto (S (N.to_nat (N.log2 n))) n EmptyString.

Definition Z_toString (z : Z) : string :=
  match z with
  | Zneg p => String "-" (N_toString (Npos p))
  | _ => N_toString (Z.to_N z)
  end.

End JS.

(* ===================================================================== *)
(** ** Data model *)
(* ===================================================================== *)

Inductive Kind : Type := stable | nightly.

Definition Kind_eqb (a b : Kind) : bool :=
  match a, b with
  | stable, stable | nightly, nightly => true
  | _, _ => false
  end.

Inductive Action : Type := create | update | ignore.

Definition Action_eqb (a b : Action) : bool :=
  match a, b with
  | create, create | update, update | ignore, ignore => true
  | _, _ => false
  end.

(** Modelled from the spec: the [BuildSchema] type declared in
    [./prepare], of which [runner.ts] reads [active], [only],
    [min_version] and the two filename templates [meta.stable_name] and
    [meta.nightly_name].  [active = None] is an absent flag. *)
Record Meta : Type := { stable_name : string; nightly_name : string }.

Record BuildSchema : Type := {
  active : option bool;
  only : option Kind;
  min_version : option string;
  meta : Meta
}.

(** An entry of [last_<kind>.json]. *)
Record Tracked : Type := {
  t_version : string;
  t_md5 : string;
  t_assetId : option N
}.

(** An entry of [BuildDefs]. *)
Record BuildDef : Type := {
  version : string;
  md5 : string;
  build : BuildSchema;
  action : Action;
  assetId : option N
}.

Definition BuildDefs : Type := JS.obj BuildDef.

Record Asset : Type := {
  buildName : string;
  filename : string;
  buildPath : string;
  a_action : Action;
  a_assetId : option N
}.

(** What a [throw] carries. *)
Inductive exn : Type :=
| ModuleNotFound (path : string)
| TypeError (property : string)
| ReadError (path : string)
| InvalidMinVersion (buildName min_version : string)
| CollaboratorError (what : string).

Inductive result (A : Type) : Type :=
| Ok (a : A)
| Throw (e : exn).
Arguments Ok {A} a.
Arguments Throw {A} e.

(** The packages [runner.ts] imports: [semver] ([valid], [coerce], [lt]
    with a parsed version on the left and a version string on the right)
    and the md5 hex digest from [crypto]. *)
Class Platform : Type := {
  SemVer : Type;
  semver_valid : string -> bool;
  semver_coerce : string -> option SemVer;
  semver_lt : SemVer -> string -> bool;
  md5_hex : string -> string;
  (** the empty string is no version *)
  semver_valid_empty : semver_valid EmptyString = false
}.

(** The collaborators of [doBuild]: [processBuild] from [./build],
    [createRelease] and [uploadAsset] from [./github]. *)
Class Collaborators : Type := {
  processBuild : string -> BuildSchema -> Kind -> string -> result (option string);
  createRelease : string -> Kind -> string -> result string;
  uploadAsset : string -> Asset -> result N;
  (** [downloadStable] and [downloadNightly] from [./system] *)
  download : Kind -> string -> result unit
}.

(* ===================================================================== *)
(** ** Change detector: [shouldBuild] *)
(* ===================================================================== *)

(** Computations of the body of [shouldBuild]: they read and assign
    [newBuilds] and may throw.  A throw leaves the assignments made so
    far in place, as [newBuilds] is declared outside the [try]. *)
Definition M (A : Type) : Type := BuildDefs -> BuildDefs * result A.

Definition ret {A} (a : A) : M A := fun s => (s, Ok a).

Definition bind {A B} (m : M A) (k : A -> M B) : M B :=
  fun s =>
    match m s with
    | (s', Ok a) => k a s'
    | (s', Throw e) => (s', Throw e)
    end.

Definition throw {A} (e : exn) : M A := fun s => (s, Throw e).

Definition lift {A} (r : result A) : M A := fun s => (s, r).

(** [newBuilds[k] = d] *)
Definition assign (k : string) (d : BuildDef) : M unit :=
  fun s => (JS.set s k d, Ok tt).

(** [try { m } catch (_e) { handler }] *)
Definition tryCatch {A} (m : M A) (handler : exn -> M A) : M A :=
  fun s =>
    match m s with
    | (s', Ok a) => (s', Ok a)
    | (s', Throw e) => handler e s'
    end.

Declare Scope runner_scope.
Delimit Scope runner_scope with runner.
Notation "x <- c ;; k" := (bind c (fun x => k))
  (at level 61, c at next level, right associativity) : runner_scope.

(** [for (const x of l) body(x)] *)
Fixpoint forOf {A} (l : list A) (body : A -> M unit) : M unit :=
  match l with
  | [] => ret tt
  | x :: l' => bind (body x) (fun _ => forOf l' body)
  end.

(** Truthiness of an optional string: [undefined] and the empty string
    are falsy. *)
Definition truthy (s : option string) : bool :=
  match s with
  | Some s' => negb (String.eqb s' EmptyString)
  | None => false
  end.

(** The test of lines 117 and 164:
    [loadedBuild.active === false || (loadedBuild.only && loadedBuild.only !== kind)]. *)
Definition disabled (kind : Kind) (loadedBuild : BuildSchema) : bool :=
  match active loadedBuild with Some false => true | _ => false end
  || match only loadedBuild with
     | Some k => negb (Kind_eqb k kind)
     | None => false
     end.

Section ChangeDetector.

Context {P : Platform}.

(** What [require(`../last_${kind}.json`)] yields ([None]: it throws) and
    what [readFile(buildName)] yields ([None]: it rejects). *)
Variable trackerFile : option (JS.obj Tracked).
Variable fileContents : string -> option string.

Variable latestVersion : string.
Variable kind : Kind.

Definition require_tracker : M (JS.obj Tracked) :=
  match trackerFile with
  | Some t => ret t
  | None =>
      throw (ModuleNotFound
               ("../last_" ++ match kind with stable => "stable" | nightly => "nightly" end
                ++ ".json"))
  end.

Definition readFile (path : string) : M string :=
  match fileContents path with
  | Some data => ret data
  | None => throw (ReadError path)
  end.

(** [trackedBuilds[buildName].assetId]: reading a property of
    [undefined] throws. *)
Definition tracked_assetId (trackedBuilds : JS.obj Tracked) (name : string)
  : M (option N) :=
  match JS.get trackedBuilds name with
  | Some tb => ret (t_assetId tb)
  | None => throw (TypeError "assetId")
  end.

(** Lines 131-141 and 169-179: [Ok true] is the [continue] of the
    version gate, [Ok false] falls through. *)
Definition version_gate (name : string) (loadedBuild : BuildSchema) : result bool :=
  if Kind_eqb kind stable && truthy (min_version loadedBuild) then
    match min_version loadedBuild with
    | Some mv =>
        if negb (semver_valid mv) then Throw (InvalidMinVersion name mv)
        else
          match semver_coerce latestVersion with
          | Some parsedLatest => Ok (semver_lt parsedLatest mv)
          | None => Ok false
          end
    | None => Ok false
    end
  else Ok false.

Local Open Scope runner_scope.

(** Body of the loop inside [try] (lines 112-159). *)
Definition tracked_body (trackedBuilds : JS.obj Tracked)
    (entry : string * BuildSchema) : M unit :=
  let '(name, loadedBuild) := entry in
  data <- readFile name ;;
  let digest := md5_hex data in
  if disabled kind loadedBuild then
    aid <- tracked_assetId trackedBuilds name ;;
    assign name {| version := latestVersion; md5 := digest; build := loadedBuild;
                   action := ignore; assetId := aid |}
  else
    skip <- lift (version_gate name loadedBuild) ;;
    if skip : bool then ret tt
    else
      match JS.get trackedBuilds name with
      | None =>
          assign name {| version := latestVersion; md5 := digest; build := loadedBuild;
                         action := create; assetId := None |}
      | Some tb =>
          if negb (String.eqb (t_version tb) latestVersion) then
            assign name {| version := latestVersion; md5 := digest; build := loadedBuild;
                           action := create; assetId := None |}
          else if negb (String.eqb digest (t_md5 tb)) then
            assign name {| version := latestVersion; md5 := digest; build := loadedBuild;
                           action := update; assetId := t_assetId tb |}
          else
            assign name {| version := latestVersion; md5 := digest; build := loadedBuild;
                           action := ignore; assetId := t_assetId tb |}
      end.

(** Body of the loop inside [catch] (lines 162-185). *)
Definition bootstrap_body (entry : string * BuildSchema) : M unit :=
  let '(name, loadedBuild) := entry in
  if disabled kind loadedBuild then ret tt
  else
    skip <- lift (version_gate name loadedBuild) ;;
    if skip : bool then ret tt
    else
      data <- readFile name ;;
      assign name {| version := latestVersion; md5 := md5_hex data; build := loadedBuild;
                     action := create; assetId := None |}.

(** The decision one iteration of the [try] loop takes for a build:
    [Ok (Some d)] when it assigns [d], [Ok None] when it leaves through
    [continue] without assigning, [Throw e] when it throws. *)
Definition classify_tracked (trackedBuilds : JS.obj Tracked) (name : string)
    (loadedBuild : BuildSchema) : result (option BuildDef) :=
  match fileContents name with
  | None => Throw (ReadError name)
  | Some data =>
      let entry a aid :=
        {| version := latestVersion; md5 := md5_hex data; build := loadedBuild;
           action := a; assetId := aid |} in
      if disabled kind loadedBuild then
        match JS.get trackedBuilds name with
        | None => Throw (TypeError "assetId")
        | Some tb => Ok (Some (entry ignore (t_assetId tb)))
        end
      else
        match version_gate name loadedBuild with
        | Throw e => Throw e
        | Ok true => Ok None
        | Ok false =>
            match JS.get trackedBuilds name with
            | None => Ok (Some (entry create None))
            | Some tb =>
                if negb (String.eqb (t_version tb) latestVersion) then
                  Ok (Some (entry create None))
                else if negb (String.eqb (md5_hex data) (t_md5 tb)) then
                  Ok (Some (entry update (t_assetId tb)))
                else Ok (Some (entry ignore (t_assetId tb)))
            end
        end
  end.

(** The same for one iteration of the [catch] loop. *)
Definition classify_bootstrap (name : string) (loadedBuild : BuildSchema)
  : result (option BuildDef) :=
  if disabled kind loadedBuild then Ok None
  else
    match version_gate name loadedBuild with
    | Throw e => Throw e
    | Ok true => Ok None
    | Ok false =>
        match fileContents name with
        | None => Throw (ReadError name)
        | Some data =>
            Ok (Some {| version := latestVersion; md5 := md5_hex data; build := loadedBuild;
                        action := create; assetId := None |})
        end
    end.

Definition tracked_pass (loadedBuilds : JS.obj BuildSchema) : M unit :=
  trackedBuilds <- require_tracker ;;
  forOf (JS.entries loadedBuilds) (tracked_body trackedBuilds).

Definition bootstrap_pass (loadedBuilds : JS.obj BuildSchema) : M unit :=
  forOf (JS.entries loadedBuilds) bootstrap_body.

Definition all_ignore (newBuilds : BuildDefs) : bool :=
  forallb (fun b => Action_eqb (action b) ignore) (JS.values newBuilds).

Definition shouldBuild (loadedBuilds : JS.obj BuildSchema) : result (bool * BuildDefs) :=
  match tryCatch (tracked_pass loadedBuilds)
                 (fun _ => bootstrap_pass loadedBuilds) [] with
  | (newBuilds, Ok _) => Ok (all_ignore newBuilds, newBuilds)
  | (_, Throw e) => Throw e
  end.

End ChangeDetector.

(** Carrying out one iteration's decision on [newBuilds]. *)
Definition store (name : string) (r : result (option BuildDef)) : M unit :=
  fun s =>
    match r with
    | Throw e => (s, Throw e)
    | Ok None => (s, Ok tt)
    | Ok (Some d) => (JS.set s name d, Ok tt)
    end.

(** The assignments a loop makes over the entries [l] when none of its
    iterations throws. *)
Definition assignments (classify : string -> BuildSchema -> result (option BuildDef))
    (l : list (string * BuildSchema)) (s : BuildDefs) : BuildDefs :=
  fold_left
    (fun acc e => match classify (fst e) (snd e) with
                  | Ok (Some d) => JS.set acc (fst e) d
                  | _ => acc
                  end)
    l s.

(** The entry the loops assign for a build whose file holds [data]. *)
Definition decision {P : Platform} (latestVersion data : string)
    (loadedBuild : BuildSchema) (a : Action) (aid : option N) : BuildDef :=
  {| version := latestVersion; md5 := md5_hex data; build := loadedBuild;
     action := a; assetId := aid |}.

Section Paths.

Context {P : Platform}.
Variable fileContents : string -> option string.
Variable latestVersion : string.
Variable kind : Kind.

(** The decisions present when the [catch] block starts: none when the
    tracker did not load, those of the iterations before the throwing
    one otherwise. *)
Inductive fallback_from (l : JS.obj BuildSchema)
  : option (JS.obj Tracked) -> BuildDefs -> Prop :=
| fallback_no_tracker : fallback_from l None []
| fallback_thrown t l1 name b l2 e :
    l = (l1 ++ (name, b) :: l2)%list ->
    classify_tracked fileContents latestVersion kind t name b = Throw e ->
    (forall name' b', In (name', b') l1 ->
       exists od, classify_tracked fileContents latestVersion kind t name' b' = Ok od) ->
    fallback_from l (Some t)
      (assignments (classify_tracked fileContents latestVersion kind t) l1 []).

(** The two ways [shouldBuild] returns. *)
Inductive returns_via (trackerFile : option (JS.obj Tracked)) (l : JS.obj BuildSchema)
    (newBuilds : BuildDefs) : Prop :=
| via_tracked t :
    trackerFile = Some t ->
    newBuilds = assignments (classify_tracked fileContents latestVersion kind t) l [] ->
    (forall name b, In (name, b) l ->
       exists od, classify_tracked fileContents latestVersion kind t name b = Ok od) ->
    returns_via trackerFile l newBuilds
| via_bootstrap acc :
    fallback_from l trackerFile acc ->
    newBuilds = assignments (classify_bootstrap fileContents latestVersion kind) l acc ->
    (forall name b, In (name, b) l ->
       exists od, classify_bootstrap fileContents latestVersion kind name b = Ok od) ->
    returns_via trackerFile l newBuilds.

End Paths.

(** What [JSON.stringify] keeps of [buildDefs] once [build] and [action]
    are deleted (lines 231-239): the next run's tracker. *)
Definition to_tracked (d : BuildDef) : Tracked :=
  {| t_version := version d; t_md5 := md5 d; t_assetId := assetId d |}.

Definition to_tracker (buildDefs : BuildDefs) : JS.obj Tracked :=
  map (fun e => (fst e, to_tracked (snd e))) buildDefs.

(* ===================================================================== *)
(** ** Release publisher: [doBuild] *)
(* ===================================================================== *)

(** What one call of [doBuild] observes of its surroundings: the
    [--dev] switch, the three [dayjs()] readings of lines 194-196 and the
    successive results of [randomInt(100000, 999999)]. *)
Record RunEnv : Type := {
  devMode : bool;
  currentDate : string;
  currentDateTime : string;
  timestamp : Z;
  randomInt : nat -> N
}.

(** What [doBuild] can change: the two tracker files it writes with
    [writeFile] ([None]: no such file), the releases created and the
    assets uploaded, oldest first. *)
Record World : Type := {
  last_json : Kind -> option (JS.obj Tracked);
  releases : list (string * Kind * string);
  uploads : list (string * Asset)
}.

(** [buildDef.build.meta[`${kind}_name`]] *)
Definition kind_name (kind : Kind) (m : Meta) : string :=
  match kind with
  | stable => stable_name m
  | nightly => nightly_name m
  end.

(** Lines 204-209. *)
Definition render_filename (env : RunEnv) (latestVersion : string) (uid : N)
    (template : string) : string :=
  let filename :=
    JS.replace
      (JS.replace
         (JS.replace
            (JS.replace template "{{marlin_version}}" latestVersion)
            "{{current_date}}" (currentDate env))
         "{{timestamp}}" (JS.Z_toString (timestamp env)))
      "{{uid}}" (JS.N_toString uid) in
  if negb (JS.endsWith filename ".bin") then filename ++ ".bin" else filename.

Section Publisher.

Context {C : Collaborators}.

Variable env : RunEnv.
Variable latestVersion : string.
Variable kind : Kind.

(** The first loop of [doBuild] (lines 199-213); [assets] is the batch
    collected so far. *)
Fixpoint collect_assets (entries : list (string * BuildDef)) (assets : list Asset)
  : result (list Asset) :=
  match entries with
  | [] => Ok assets
  | (name, buildDef) :: rest =>
      if Action_eqb (action buildDef) ignore then collect_assets rest assets
      else
        match processBuild name (build buildDef) kind latestVersion with
        | Throw e => Throw e
        | Ok None => collect_assets rest assets
        | Ok (Some path) =>
            if negb (truthy (Some path)) then collect_assets rest assets
            else
              let filename :=
                render_filename env latestVersion (randomInt env (length assets))
                  (kind_name kind (meta (build buildDef))) in
              collect_assets rest
                (assets ++ [{| buildName := name; filename := filename; buildPath := path;
                               a_action := action buildDef; a_assetId := assetId buildDef |}])
        end
  end.

(** [buildDefs[name].assetId = assetId] *)
Definition set_assetId (buildDefs : BuildDefs) (name : string) (id : N) : result BuildDefs :=
  match JS.get buildDefs name with
  | Some d =>
      Ok (JS.set buildDefs name
            {| version := version d; md5 := md5 d; build := build d;
               action := action d; assetId := Some id |})
  | None => Throw (TypeError "assetId")
  end.

(** The upload loop (lines 224-230). *)
Fixpoint upload_assets (uploadUrl : string) (assets : list Asset)
    (buildDefs : BuildDefs) (w : World) : World * result BuildDefs :=
  match assets with
  | [] => (w, Ok buildDefs)
  | asset :: rest =>
      match uploadAsset uploadUrl asset with
      | Throw e => (w, Throw e)
      | Ok id =>
          let w' := {| last_json := last_json w; releases := releases w;
                       uploads := uploads w ++ [(uploadUrl, asset)] |} in
          match set_assetId buildDefs (buildName asset) id with
          | Throw e => (w', Throw e)
          | Ok buildDefs' => upload_assets uploadUrl rest buildDefs' w'
          end
      end
  end.

(** [writeFile(`./last_${kind}.json`, JSON.stringify(buildDefs, null, 4))] *)
Definition write_tracker (buildDefs : BuildDefs) (w : World) : World :=
  {| last_json := fun k => if Kind_eqb k kind then Some (to_tracker buildDefs) else last_json w k;
     releases := releases w;
     uploads := uploads w |}.

Definition doBuild (buildDefs : BuildDefs) (w : World) : World * result unit :=
  match collect_assets (JS.entries buildDefs) [] with
  | Throw e => (w, Throw e)
  | Ok assets =>
      if devMode env then (w, Ok tt)
      else if Nat.eqb (length assets) 0 then (w, Ok tt)
      else
        match createRelease latestVersion kind (currentDateTime env) with
        | Throw e => (w, Throw e)
        | Ok uploadUrl =>
            let w1 := {| last_json := last_json w;
                         releases := releases w ++ [(latestVersion, kind, currentDateTime env)];
                         uploads := uploads w |} in
            match upload_assets uploadUrl assets buildDefs w1 with
            | (w2, Throw e) => (w2, Throw e)
            | (w2, Ok buildDefs') => (write_tracker buildDefs' w2, Ok tt)
            end
        end
  end.

End Publisher.

(** The body of [main] from line 27 on, once the latest versions are
    resolved and the catalog is loaded.  Both classifications read the
    tracker files as they are before any publishing; each [doBuild] call
    takes its own readings of the clock and of [randomInt]. *)
Definition main {P : Platform} {C : Collaborators}
    (fileContents : string -> option string)
    (envStable envNightly : RunEnv)
    (latestStable latestNightly : string)
    (builds : JS.obj BuildSchema) (w : World) : World * result unit :=
  if Nat.eqb (length (JS.keys builds)) 0 then (w, Ok tt)
  else
    match shouldBuild (last_json w stable) fileContents latestStable stable builds with
    | Throw e => (w, Throw e)
    | Ok (ignoreStable, stableBuilds) =>
        match shouldBuild (last_json w nightly) fileContents latestNightly nightly builds with
        | Throw e => (w, Throw e)
        | Ok (ignoreNightly, nightlyBuilds) =>
            if ignoreStable && ignoreNightly then (w, Ok tt)
            else
              let publish (skip : bool) (env : RunEnv) (latest : string) (kind : Kind)
                          (buildDefs : BuildDefs) (w0 : World) : World * result unit :=
                if skip then (w0, Ok tt)
                else
                  match download kind latest with
                  | Throw e => (w0, Throw e)
                  | Ok _ => doBuild env latest kind buildDefs w0
                  end in
              match publish ignoreStable envStable latestStable stable stableBuilds w with
              | (w1, Throw e) => (w1, Throw e)
              | (w1, Ok _) =>
                  publish ignoreNightly envNightly latestNightly nightly nightlyBuilds w1
              end
        end
    end.

(* ===================================================================== *)
(** ** A reference platform for the examples *)
(* ===================================================================== *)

(** A small stand-in for the [semver] package, enough to run the
    classification on plain dotted versions: [valid] accepts exactly
    [MAJOR.MINOR.PATCH] in decimal without leading zeros, [coerce] reads
    the first run of digits and up to two further dot-separated runs
    ([2.1.1.1] gives [2.1.1], [2.1] gives [2.1.0]), [lt] compares
    component-wise.  The digest stand-in is the file contents
    themselves. *)
Module Ref.

Definition is_digit (c : ascii) : bool :=
  let n := N_of_ascii c in ((48 <=? n) && (n <=? 57))%N.

Fixpoint take_number (s : string) : string * string :=
  match s with
  | EmptyString => (EmptyString, EmptyString)
  | String c s' =>
      if is_digit c then let '(d, r) := take_number s' in (String c d, r)
      else (EmptyString, s)
  end.

Fixpoint number_value (d : string) (acc : N) : N :=
  match d with
  | EmptyString => acc
  | String c d' => number_value d' (10 * acc + (N_of_ascii c - 48))%N
  end.

Definition well_formed_number (d : string) : bool :=
  match d with
  | EmptyString => false
  | String "0" (String _ _) => false
  | _ => true
  end.

Definition version : Type := N * N * N.

Definition parse (s : string) : option version :=
  let '(a, r1) := take_number s in
  match r1 with
  | String "." r1' =>
      let '(b, r2) := take_number r1' in
      match r2 with
      | String "." r2' =>
          let '(c, r3) := take_number r2' in
          match r3 with
          | EmptyString =>
              if well_formed_number a && well_formed_number b && well_formed_number c
              then Some (number_value a 0, number_value b 0, number_value c 0)
              else None
          | _ => None
          end
      | _ => None
      end
  | _ => None
  end.

Definition valid (s : string) : bool :=
  match parse s with Some _ => true | None => false end.

Fixpoint skip_to_digit (s : string) : string :=
  match s with
  | EmptyString => EmptyString
  | String c s' => if is_digit c then s else skip_to_digit s'
  end.

Definition dot_number (r : string) : string * string :=
  match r with
  | String "." r' =>
      let '(d, r2) := take_number r' in
      match d with
      | EmptyString => (EmptyString, r)
      | _ => (d, r2)
      end
  | _ => (EmptyString, r)
  end.

Definition coerce (s : string) : option version :=
  let '(a, r1) := take_number (skip_to_digit s) in
  match a with
  | EmptyString => None
  | _ =>
      let '(b, r2) := dot_number r1 in
      let '(c, _) := dot_number r2 in
      Some (number_value a 0, number_value b 0, number_value c 0)
  end.

Definition version_ltb (x y : version) : bool :=
  let '(a1, b1, c1) := x in
  let '(a2, b2, c2) := y in
  ((a1 <? a2) || ((a1 =? a2) && ((b1 <? b2) || ((b1 =? b2) && (c1 <? c2)))))%N.

Definition lt (x : version) (s : string) : bool :=
  match parse s with
  | Some y => version_ltb x y
  | None => false
  end.

Definition platform : Platform :=
  {| SemVer := version;
     semver_valid := valid;
     semver_coerce := coerce;
     semver_lt := lt;
     md5_hex := fun data => data;
     semver_valid_empty := eq_refl |}.

(** Collaborators for the examples: every build yields an artifact under
    [dist/], the release URL is fixed and every upload is given the
    asset id 42. *)
Definition collaborators : Collaborators :=
  {| processBuild := fun name _ _ _ => Ok (Some ("dist/" ++ name)%string);
     createRelease := fun _ _ _ => Ok "https://uploads.example/release";
     uploadAsset := fun _ _ => Ok 42%N;
     download := fun _ _ => Ok tt |}.

(** Collaborators whose build step never yields an artifact. *)
Definition idle_collaborators : Collaborators :=
  {| processBuild := fun _ _ _ _ => Ok None;
     createRelease := fun _ _ _ => Ok "https://uploads.example/release";
     uploadAsset := fun _ _ => Ok 42%N;
     download := fun _ _ => Ok tt |}.

Definition env : RunEnv :=
  {| devMode := false;
     currentDate := "20240102";
     currentDateTime := "202401020304";
     timestamp := 1704164640;
     randomInt := fun i => (123456 + N.of_nat i)%N |}.

Definition empty_world : World :=
  {| last_json := fun _ => None; releases := []; uploads := [] |}.

(** Build definitions and files for the examples. *)
Definition templates : Meta :=
  {| stable_name := "Marlin_{{marlin_version}}_{{current_date}}_{{timestamp}}_{{uid}}";
     nightly_name := "Marlin_nightly_{{current_date}}_{{uid}}.bin" |}.

Definition build_def (a : option bool) (o : option Kind) (mv : option string)
  : BuildSchema :=
  {| active := a; only := o; min_version := mv; meta := templates |}.

Definition enabled_build : BuildSchema := build_def None None None.
Definition disabled_build : BuildSchema := build_def (Some false) None None.

Definition files (path : string) : option string :=
  Some ("contents of " ++ path)%string.

Definition record (v path : string) (aid : option N) : Tracked :=
  {| t_version := v; t_md5 := ("contents of " ++ path)%string; t_assetId := aid |}.

End Ref.

(* ===================================================================== *)
(** ** Filename templates as segments *)
(* ===================================================================== *)

(** The four placeholders [doBuild] substitutes, in the order of the
    [replace] calls. *)
Inductive placeholder : Type := marlin_version | current_date | p_timestamp | uid.

Definition placeholder_text (p : placeholder) : string :=
  match p with
  | marlin_version => "{{marlin_version}}"
  | current_date => "{{current_date}}"
  | p_timestamp => "{{timestamp}}"
  | uid => "{{uid}}"
  end.

Definition placeholder_eqb (p q : placeholder) : bool :=
  match p, q with
  | marlin_version, marlin_version | current_date, current_date
  | p_timestamp, p_timestamp | uid, uid => true
  | _, _ => false
  end.

(** A template read as literal text interleaved with placeholders. *)
Inductive segment : Type :=
| Lit (text : string)
| Hole (p : placeholder).

(** The text of a segmented template when each placeholder [p] stands
    for [value p]. *)
Fixpoint fill (value : placeholder -> string) (segs : list segment) : string :=
  match segs with
  | [] => EmptyString
  | Lit text :: rest => text ++ fill value rest
  | Hole p :: rest => value p ++ fill value rest
  end.

Definition template_text (segs : list segment) : string := fill placeholder_text segs.

Fixpoint holes (segs : list segment) : list placeholder :=
  match segs with
  | [] => []
  | Lit _ :: rest => holes rest
  | Hole p :: rest => p :: holes rest
  end.

(** [c] does not occur in [s]. *)
Fixpoint free_of (c : ascii) (s : string) : bool :=
  match s with
  | EmptyString => true
  | String a s' => negb (Ascii.eqb a c) && free_of c s'
  end.

Fixpoint literals_free_of (c : ascii) (segs : list segment) : bool :=
  match segs with
  | [] => true
  | Lit text :: rest => free_of c text && literals_free_of c rest
  | Hole _ :: rest => literals_free_of c rest
  end.

(** The values once the [replace] call for [p] has put [v] in its place. *)
Definition with_value (value : placeholder -> string) (p : placeholder) (v : string)
  : placeholder -> string :=
  fun q => if placeholder_eqb q p then v else value q.

(** The values [doBuild] substitutes. *)
Definition placeholder_value (env : RunEnv) (latestVersion : string) (id : N)
    (p : placeholder) : string :=
  match p with
  | marlin_version => latestVersion
  | current_date => currentDate env
  | p_timestamp => JS.Z_toString (timestamp env)
  | uid => JS.N_toString id
  end.

(* ===================================================================== *)
(** ** The whole of [main], with its directory set-up *)
(* ===================================================================== *)

(** What a tracker file holds: text [require] cannot parse, or a
    tracker. *)
Inductive json_file : Type :=
| Unparseable (raw : string)
| Parsed (t : JS.obj Tracked).

(** What [require] makes of a tracker file: it throws when the file is
    missing or cannot be parsed. *)
Definition loaded (f : option json_file) : option (JS.obj Tracked) :=
  match f with
  | Some (Parsed t) => Some t
  | _ => None
  end.

(** The tracker files of the main repository ([../last_<kind>.json]),
    those of the working directory ([./last_<kind>.json], the ones
    [shouldBuild] reads and [doBuild] writes), the releases created and
    the assets uploaded. *)
Record Site : Type := {
  upstream : Kind -> option json_file;
  working : Kind -> option json_file;
  site_releases : list (string * Kind * string);
  site_uploads : list (string * Asset)
}.

(** [try { await copyFile(src, dest); } catch (_e) {}] on a tracker
    file: [copyFile] overwrites the destination and rejects when the
    source is missing, which the empty [catch] swallows. *)
Definition copyFile_or_skip (src dest : option json_file) : option json_file :=
  match src with
  | Some f => Some f
  | None => dest
  end.

(** The other awaited calls of [main], [dirSetupBefore], [dirSetup] and
    [dirSetupAfter]: version resolution, the recursive copies of the
    [builds] and [autogeneratedConfigs] directories, the re-creation of
    [./dist] (the failure of its [rm] is swallowed, that of its two
    [mkdir] is not), [registerQuote] and [loadBuilds].  None of them
    touches a tracker file. *)
Class Surroundings : Type := {
  getLatestStable : result string;
  getLatestNightly : result string;
  copyBuilds : result unit;
  dirSetup : result unit;
  registerQuote : result unit;
  loadBuilds : result (JS.obj BuildSchema);
  copyConfigs : result unit
}.

(** Lines 64-72. *)
Definition dirSetupBefore {E : Surroundings} (s : Site) : Site * result unit :=
  ({| upstream := upstream s;
      working := fun k => copyFile_or_skip (upstream s k) (working s k);
      site_releases := site_releases s;
      site_uploads := site_uploads s |},
   copyBuilds).

(** Lines 83-91. *)
Definition dirSetupAfter {E : Surroundings} (s : Site) : Site * result unit :=
  ({| upstream := fun k => copyFile_or_skip (working s k) (upstream s k);
      working := working s;
      site_releases := site_releases s;
      site_uploads := site_uploads s |},
   copyConfigs).

(** The part of a site [shouldBuild] and [doBuild] work on. *)
Definition world_of (s : Site) : World :=
  {| last_json := fun k => loaded (working s k);
     releases := site_releases s;
     uploads := site_uploads s |}.

(** The site once publishing has turned its world into [w]: a tracker
    file [doBuild] wrote holds the tracker written, the others are as
    they were. *)
Definition site_after (s : Site) (w : World) : Site :=
  {| upstream := upstream s;
     working := fun k => match last_json w k with
                         | Some t => Some (Parsed t)
                         | None => working s k
                         end;
     site_releases := releases w;
     site_uploads := uploads w |}.

Definition set_devMode (dev : bool) (env : RunEnv) : RunEnv :=
  {| devMode := dev; currentDate := currentDate env;
     currentDateTime := currentDateTime env; timestamp := timestamp env;
     randomInt := randomInt env |}.

(** Lines 40-45 and 47-51: download and publish one channel unless it
    is all [ignore]. *)
Definition publish_channel {C : Collaborators} (skip : bool) (env : RunEnv)
    (latest : string) (kind : Kind) (buildDefs : BuildDefs) (w : World)
  : World * result unit :=
  if skip then (w, Ok tt)
  else
    match download kind latest with
    | Throw e => (w, Throw e)
    | Ok _ => doBuild env latest kind buildDefs w
    end.

(** [main] (lines 17-57) with [devMode] (line 12) as [dev]; the two
    [RunEnv] hold the clock and [randomInt] readings of the two [doBuild]
    calls.  A [return] before the end skips [dirSetupAfter]. *)
Definition runner {P : Platform} {C : Collaborators} {E : Surroundings}
    (dev : bool) (fileContents : string -> option string)
    (envStable envNightly : RunEnv) (s : Site) : Site * result unit :=
  match getLatestStable with
  | Throw e => (s, Throw e)
  | Ok latestStable =>
  match getLatestNightly with
  | Throw e => (s, Throw e)
  | Ok latestNightly =>
  match (if dev then (s, Ok tt) else dirSetupBefore s) with
  | (s1, Throw e) => (s1, Throw e)
  | (s1, Ok _) =>
  match dirSetup with
  | Throw e => (s1, Throw e)
  | Ok _ =>
  match registerQuote with
  | Throw e => (s1, Throw e)
  | Ok _ =>
  match loadBuilds with
  | Throw e => (s1, Throw e)
  | Ok builds =>
      if Nat.eqb (length (JS.keys builds)) 0 then (s1, Ok tt)
      else
        match shouldBuild (loaded (working s1 stable)) fileContents latestStable
                stable builds with
        | Throw e => (s1, Throw e)
        | Ok (ignoreStable, stableBuilds) =>
        match shouldBuild (loaded (working s1 nightly)) fileContents latestNightly
                nightly builds with
        | Throw e => (s1, Throw e)
        | Ok (ignoreNightly, nightlyBuilds) =>
            if ignoreStable && ignoreNightly then (s1, Ok tt)
            else
              match publish_channel ignoreStable (set_devMode dev envStable)
                      latestStable stable stableBuilds (world_of s1) with
              | (w1, Throw e) => (site_after s1 w1, Throw e)
              | (w1, Ok _) =>
              match publish_channel ignoreNightly (set_devMode dev envNightly)
                      latestNightly nightly nightlyBuilds w1 with
              | (w2, Throw e) => (site_after s1 w2, Throw e)
              | (w2, Ok _) =>
                  if dev then (site_after s1 w2, Ok tt)
                  else dirSetupAfter (site_after s1 w2)
              end
              end
        end
        end
  end
  end
  end
  end
  end
  end.

(** [k in o] *)
Definition has_key {V : Type} (o : JS.obj V) (k : string) : bool :=
  match JS.get o k with
  | Some _ => true
  | None => false
  end.

(** Whether an iteration assigns a decision. *)
Definition decides (classify : string -> BuildSchema -> result (option BuildDef))
    (e : string * BuildSchema) : bool :=
  match classify (fst e) (snd e) with
  | Ok (Some _) => true
  | _ => false
  end.

(** A build neither loop of [shouldBuild] can fail on once the tracker
    is out of the way: it is disabled, or its [min_version] passes the
    validity check and, unless the version gate skips it, its file is
    readable. *)
Definition classifiable {P : Platform} (fileContents : string -> option string)
    (latestVersion : string) (kind : Kind) (name : string) (b : BuildSchema) : Prop :=
  disabled kind b = true \/
  exists g, version_gate latestVersion kind name b = Ok g /\
            (g = false -> fileContents name <> None).

(** [l'] is [l] with some of its elements left out, the others in the
    same order. *)
Inductive subseq {A : Type} : list A -> list A -> Prop :=
| subseq_nil : subseq [] []
| subseq_skip x l' l : subseq l' l -> subseq l' (x :: l)
| subseq_keep x l' l : subseq l' l -> subseq (x :: l') (x :: l).

(** Surroundings and sites for the examples. *)
Module RefSite.


(** The same with a catalog whose only build has an invalid
    [min_version]. *)
Definition broken_surroundings : Surroundings :=
  {| getLatestStable := Ok "2.1.2";
     getLatestNightly := Ok "bugfix-2.1.x";
     copyBuilds := Ok tt;
     dirSetup := Ok tt;
     registerQuote := Ok tt;
     loadBuilds := Ok [("builds/a.json", Ref.build_def None None (Some "not-a-version"))];
     copyConfigs := Ok tt |}.


(** A main repository tracking [builds/a.json] at an older version on
    both channels, and an empty working directory. *)
Definition tracked_site : Site :=
  {| upstream := fun _ =>
       Some (Parsed [("builds/a.json", Ref.record "2.1.1" "builds/a.json" (Some 7%N))]);
     working := fun _ => None;
     site_releases := []; site_uploads := [] |}.




End RefSite.

(* ===================================================================== *)
(** ** The primitives on examples *)
(* ===================================================================== *)

Example replace_first_only :
  JS.replace "a-{{uid}}-{{uid}}" "{{uid}}" "7" = "a-7-{{uid}}".
Proof. reflexivity. Qed.

Example replace_dollar_patterns :
  JS.replace "x{{v}}y" "{{v}}" "[$&|$`|$'|$$|$1]" = "x[{{v}}|x|y|$|$1]y".
Proof. reflexivity. Qed.

Example toString_examples :
  JS.Z_toString 1700000000 = "1700000000" /\ JS.Z_toString 0 = "0" /\
  JS.Z_toString (-42) = "-42" /\ JS.N_toString 123456 = "123456".
Proof. repeat split; vm_compute; reflexivity. Qed.

Example endsWith_examples :
  JS.endsWith "fw.bin" ".bin" = true /\ JS.endsWith "fw.bin.txt" ".bin" = false /\
  JS.endsWith "bin" ".bin" = false.
Proof. repeat split. Qed.

Example set_keeps_position :
  JS.set [("a", 1); ("b", 2)] "a" 3 = [("a", 3); ("b", 2)] /\
  JS.set [("a", 1); ("b", 2)] "c" 3 = [("a", 1); ("b", 2); ("c", 3)].
Proof. split; reflexivity. Qed.

Example coerce_drops_fourth_segment :
  Ref.coerce "2.1.1.1" = Some (2, 1, 1)%N /\ Ref.coerce "bugfix-2.1.x" = Some (2, 1, 0)%N /\
  Ref.valid "2.1.2" = true /\ Ref.valid "2.1" = false /\ Ref.valid "not-a-version" = false.
Proof. repeat split. Qed.

(** The scenarios of the specification's section 8. *)
Example scenario_first_run :
  shouldBuild (P := Ref.platform) None Ref.files "2.1.1" stable
    [("build1", Ref.enabled_build)]
  = Ok (false,
        [("build1",
          {| version := "2.1.1"; md5 := "contents of build1"; build := Ref.enabled_build;
             action := create; assetId := None |})]).
Proof. reflexivity. Qed.

Example scenario_up_to_date :
  shouldBuild (P := Ref.platform)
    (Some [("build1", Ref.record "2.1.1" "build1" (Some 42%N))])
    Ref.files "2.1.1" stable [("build1", Ref.enabled_build)]
  = Ok (true,
        [("build1",
          {| version := "2.1.1"; md5 := "contents of build1"; build := Ref.enabled_build;
             action := ignore; assetId := Some 42%N |})]).
Proof. reflexivity. Qed.

Example scenario_content_changed :
  shouldBuild (P := Ref.platform)
    (Some [("build1", {| t_version := "2.1.1"; t_md5 := "abc"; t_assetId := Some 42%N |})])
    Ref.files "2.1.1" stable [("build1", Ref.enabled_build)]
  = Ok (false,
        [("build1",
          {| version := "2.1.1"; md5 := "contents of build1"; build := Ref.enabled_build;
             action := update; assetId := Some 42%N |})]).
Proof. reflexivity. Qed.

Example scenario_publish :
  doBuild (C := Ref.collaborators) Ref.env "2.1.1" stable
    [("build1",
      {| version := "2.1.1"; md5 := "contents of build1"; build := Ref.enabled_build;
         action := create; assetId := None |})]
    Ref.empty_world
  = ({| last_json := fun k =>
          if Kind_eqb k stable
          then Some [("build1", Ref.record "2.1.1" "build1" (Some 42%N))]
          else None;
        releases := [("2.1.1", stable, "202401020304")];
        uploads :=
          [("https://uploads.example/release",
            {| buildName := "build1";
               filename := "Marlin_2.1.1_20240102_1704164640_123456.bin";
               buildPath := "dist/build1";
               a_action := create; a_assetId := None |})] |},
     Ok tt).
Proof. reflexivity. Qed.

(* ===================================================================== *)
(** ** Objects: lookup after assignment *)
(* ===================================================================== *)

Unset Implicit Arguments.

Module ObjFacts.

Section WithValues.

Context {V : Type}.
Implicit Types (o : JS.obj V) (k : string) (v : V).

Lemma get_set_same o k v : JS.get (JS.set o k v) k = Some v.
Proof.
  induction o as [|[k' v'] o IH]; simpl.
  - now rewrite String.eqb_refl.
  - destruct (String.eqb k' k) eqn:E; simpl; rewrite E; auto.
Qed.

Lemma get_set_other o k k' v : k <> k' -> JS.get (JS.set o k v) k' = JS.get o k'.
Proof.
  intros Hne. induction o as [|[k0 v0] o IH]; simpl.
  - destruct (String.eqb k k') eqn:E; auto.
    apply String.eqb_eq in E. contradiction.
  - destruct (String.eqb k0 k) eqn:E; simpl.
    + apply String.eqb_eq in E. subst k0.
      destruct (String.eqb k k') eqn:E'; auto.
      apply String.eqb_eq in E'. contradiction.
    + now rewrite IH.
Qed.

Lemma get_set o k k' v :
  JS.get (JS.set o k v) k' = if String.eqb k k' then Some v else JS.get o k'.
Proof.
  destruct (String.eqb k k') eqn:E.
  - apply String.eqb_eq in E. subst. apply get_set_same.
  - apply String.eqb_neq in E. now apply get_set_other.
Qed.

Lemma keys_set o k v :
  JS.keys (JS.set o k v) = if in_dec string_dec k (JS.keys o) then JS.keys o
                           else (JS.keys o ++ [k])%list.
Proof.
  unfold JS.keys. induction o as [|[k0 v0] o IH]; simpl; auto.
  destruct (String.eqb k0 k) eqn:E; simpl.
  - apply String.eqb_eq in E. subst.
    destruct (string_dec k k); [|congruence]. reflexivity.
  - apply String.eqb_neq in E. rewrite IH.
    destruct (string_dec k0 k); [contradiction|].
    destruct (in_dec string_dec k (map fst o)); reflexivity.
Qed.

Lemma in_keys_set o k k' v :
  In k' (JS.keys (JS.set o k v)) <-> k' = k \/ In k' (JS.keys o).
Proof.
  rewrite keys_set. destruct (in_dec string_dec k (JS.keys o)) as [Hin|Hnin].
  - split; [tauto|]. intros [->|H]; auto.
  - rewrite in_app_iff. simpl. split; intros H; intuition.
Qed.

Lemma wf_set o k v : JS.wf o -> JS.wf (JS.set o k v).
Proof.
  unfold JS.wf. intros Hnd. rewrite keys_set.
  destruct (in_dec string_dec k (JS.keys o)) as [Hin|Hnin]; auto.
  apply NoDup_app; auto.
  - repeat constructor. simpl. tauto.
  - intros x Hx [->|[]]. contradiction.
Qed.

Lemma get_none_iff o k : JS.get o k = None <-> ~ In k (JS.keys o).
Proof.
  unfold JS.keys. induction o as [|[k0 v0] o IH]; simpl.
  - tauto.
  - destruct (String.eqb k0 k) eqn:E.
    + apply String.eqb_eq in E. subst. split; [discriminate|tauto].
    + apply String.eqb_neq in E. rewrite IH. tauto.
Qed.

Lemma get_some_in_keys o k v : JS.get o k = Some v -> In k (JS.keys o).
Proof.
  intros H. destruct (in_dec string_dec k (JS.keys o)) as [|Hn]; auto.
  apply get_none_iff in Hn. congruence.
Qed.

Lemma get_some_in o k v : JS.get o k = Some v -> In (k, v) o.
Proof.
  induction o as [|[k0 v0] o IH]; simpl; [discriminate|].
  destruct (String.eqb k0 k) eqn:E.
  - apply String.eqb_eq in E. intros [= ->]. subst. now left.
  - intros H. right. now apply IH.
Qed.

Lemma in_wf_get o k v : JS.wf o -> In (k, v) o -> JS.get o k = Some v.
Proof.
  unfold JS.wf, JS.keys. induction o as [|[k0 v0] o IH]; simpl; [tauto|].
  intros Hnd [Heq|Hin].
  - inversion Heq; subst. now rewrite String.eqb_refl.
  - inversion Hnd as [|? ? Hnotin Hnd']; subst.
    destruct (String.eqb k0 k) eqn:E.
    + apply String.eqb_eq in E. subst. exfalso. apply Hnotin.
      change k with (fst (k, v)). now apply in_map.
    + now apply IH.
Qed.

Lemma wf_count_occ o k :
  JS.wf o -> In k (JS.keys o) -> count_occ string_dec (JS.keys o) k = 1.
Proof.
  intros Hnd Hin. apply NoDup_count_occ' with (decA := string_dec) in Hin; auto.
Qed.

End WithValues.

End ObjFacts.

(* ===================================================================== *)
(** ** The two loops of [shouldBuild] *)
(* ===================================================================== *)

Section LoopFacts.

Context {P : Platform}.
Variable fileContents : string -> option string.
Variable latestVersion : string.
Variable kind : Kind.

Lemma tracked_body_store trackedBuilds name loadedBuild s :
  tracked_body fileContents latestVersion kind trackedBuilds (name, loadedBuild) s
  = store name
      (classify_tracked fileContents latestVersion kind trackedBuilds name loadedBuild) s.
Proof.
  unfold tracked_body, classify_tracked, store, bind, readFile, tracked_assetId, lift,
    assign, ret, throw.
  destruct (fileContents name) as [data|]; [|reflexivity].
  destruct (disabled kind loadedBuild).
  - destruct (JS.get trackedBuilds name); reflexivity.
  - destruct (version_gate latestVersion kind name loadedBuild) as [[|]|e]; try reflexivity.
    destruct (JS.get trackedBuilds name) as [tb|]; [|reflexivity].
    destruct (negb (String.eqb (t_version tb) latestVersion)); [reflexivity|].
    destruct (negb (String.eqb (md5_hex data) (t_md5 tb))); reflexivity.
Qed.

Lemma bootstrap_body_store name loadedBuild s :
  bootstrap_body fileContents latestVersion kind (name, loadedBuild) s
  = store name (classify_bootstrap fileContents latestVersion kind name loadedBuild) s.
Proof.
  unfold bootstrap_body, classify_bootstrap, store, bind, readFile, lift, assign, ret, throw.
  destruct (disabled kind loadedBuild); [reflexivity|].
  destruct (version_gate latestVersion kind name loadedBuild) as [[|]|e]; try reflexivity.
  destruct (fileContents name); reflexivity.
Qed.

End LoopFacts.

Section StoreLoop.

(** A loop whose every iteration carries out a decision. *)
Variable classify : string -> BuildSchema -> result (option BuildDef).
Variable body : string * BuildSchema -> M unit.
Hypothesis body_store : forall name b s, body (name, b) s = store name (classify name b) s.

(** A loop that ends normally has made the assignments of all its
    iterations, none of which threw. *)
Lemma forOf_ok l s s' :
  forOf l body s = (s', Ok tt) ->
  s' = assignments classify l s /\
  forall name b, In (name, b) l -> exists od, classify name b = Ok od.
Proof.
  revert s. induction l as [|[n b] l IH]; simpl; intros s H.
  - unfold ret in H. inversion H; subst. split; [reflexivity|]. intros ? ? [].
  - unfold bind in H. rewrite body_store in H. unfold store in H.
    unfold assignments. simpl.
    destruct (classify n b) as [[d|]|e] eqn:Ec; try discriminate.
    + apply IH in H. destruct H as [-> Hall]. split; [reflexivity|].
      intros name b' [Heq|Hin]; [inversion Heq; subst; eauto|eauto].
    + apply IH in H. destruct H as [-> Hall]. split; [reflexivity|].
      intros name b' [Heq|Hin]; [inversion Heq; subst; eauto|eauto].
Qed.

(** A loop that throws has made the assignments of the iterations
    before the throwing one. *)
Lemma forOf_throw l s s' e :
  forOf l body s = (s', Throw e) ->
  exists l1 name b l2,
    l = (l1 ++ (name, b) :: l2)%list /\ classify name b = Throw e /\
    s' = assignments classify l1 s /\
    forall name' b', In (name', b') l1 -> exists od, classify name' b' = Ok od.
Proof.
  revert s. induction l as [|[n b] l IH]; simpl; intros s H.
  - unfold ret in H. discriminate.
  - unfold bind in H. rewrite body_store in H. unfold store in H.
    destruct (classify n b) as [[d|]|e0] eqn:Ec.
    + apply IH in H. destruct H as (l1 & name & b0 & l2 & -> & Ht & -> & Hall).
      exists ((n, b) :: l1), name, b0, l2. repeat split; auto.
      * unfold assignments. simpl. now rewrite Ec.
      * intros name' b' [Heq|Hin]; [inversion Heq; subst; eauto|eauto].
    + apply IH in H. destruct H as (l1 & name & b0 & l2 & -> & Ht & -> & Hall).
      exists ((n, b) :: l1), name, b0, l2. repeat split; auto.
      * unfold assignments. simpl. now rewrite Ec.
      * intros name' b' [Heq|Hin]; [inversion Heq; subst; eauto|eauto].
    + inversion H; subst. exists [], n, b, l. repeat split; auto.
      intros ? ? [].
Qed.


(** A loop one of whose iterations throws throws. *)
Lemma forOf_throws l s name b e :
  In (name, b) l -> classify name b = Throw e ->
  exists s' e', forOf l body s = (s', Throw e').
Proof.
  revert s. induction l as [|[n0 b0] l IH]; simpl; intros s Hin Ht; [contradiction|].
  unfold bind. rewrite body_store. unfold store.
  destruct (classify n0 b0) as [[d|]|e0] eqn:Ec.
  - destruct Hin as [Heq|Hin]; [inversion Heq; subst; congruence|]. now apply IH.
  - destruct Hin as [Heq|Hin]; [inversion Heq; subst; congruence|]. now apply IH.
  - eauto.
Qed.

(** Lookup in the assignments of a loop over an object's entries. *)
Lemma get_assignments l s name :
  JS.wf l ->
  JS.get (assignments classify l s) name
  = match JS.get l name with
    | Some b => match classify name b with
                | Ok (Some d) => Some d
                | _ => JS.get s name
                end
    | None => JS.get s name
    end.
Proof.
  unfold JS.wf, JS.keys, assignments.
  revert s. induction l as [|[n b] l IH]; simpl; intros s Hnd; [reflexivity|].
  inversion Hnd as [|? ? Hnotin Hnd']; subst.
  rewrite IH by assumption.
  destruct (String.eqb n name) eqn:E.
  - apply String.eqb_eq in E. subst n.
    assert (Hnone : JS.get l name = None) by now apply ObjFacts.get_none_iff.
    rewrite Hnone.
    destruct (classify name b) as [[d|]|e]; auto. apply ObjFacts.get_set_same.
  - apply String.eqb_neq in E.
    assert (Hs : JS.get (match classify n b with
                         | Ok (Some d) => JS.set s n d
                         | _ => s
                         end) name = JS.get s name).
    { destruct (classify n b) as [[d|]|e]; auto. now apply ObjFacts.get_set_other. }
    rewrite Hs. reflexivity.
Qed.

Lemma keys_assignments l s name :
  In name (JS.keys (assignments classify l s)) ->
  In name (JS.keys s) \/ In name (JS.keys l).
Proof.
  unfold assignments, JS.keys.
  revert s. induction l as [|[n b] l IH]; simpl; intros s H; [now left|].
  apply IH in H. destruct H as [H|H]; [|now right; right].
  destruct (classify n b) as [[d|]|e]; auto.
  apply ObjFacts.in_keys_set in H. destruct H as [->|H]; auto.
Qed.

Lemma wf_assignments l s : JS.wf s -> JS.wf (assignments classify l s).
Proof.
  unfold assignments. revert s. induction l as [|[n b] l IH]; simpl; intros s H; auto.
  apply IH. destruct (classify n b) as [[d|]|e]; auto. now apply ObjFacts.wf_set.
Qed.

End StoreLoop.

(* ===================================================================== *)
(** ** How [shouldBuild] reaches its result *)
(* ===================================================================== *)

Section ShouldBuildFacts.

Context {P : Platform}.
Variable fileContents : string -> option string.
Variable latestVersion : string.
Variable kind : Kind.

Local Abbreviation classifyT := (classify_tracked fileContents latestVersion kind).
Local Abbreviation classifyB := (classify_bootstrap fileContents latestVersion kind).
Local Abbreviation gate := (version_gate latestVersion kind).
Local Abbreviation entry := (decision latestVersion).
Local Abbreviation run :=
  (fun trackerFile => shouldBuild trackerFile fileContents latestVersion kind).
Local Abbreviation fallback_from := (fallback_from fileContents latestVersion kind).
Local Abbreviation returns_via := (returns_via fileContents latestVersion kind).

Lemma tracked_pass_some t l s :
  tracked_pass (Some t) fileContents latestVersion kind l s
  = forOf l (tracked_body fileContents latestVersion kind t) s.
Proof. reflexivity. Qed.

Lemma shouldBuild_ok trackerFile l ig newBuilds :
  run trackerFile l = Ok (ig, newBuilds) ->
  ig = all_ignore newBuilds /\ returns_via trackerFile l newBuilds.
Proof.
  unfold shouldBuild, tryCatch. destruct trackerFile as [t|].
  - rewrite tracked_pass_some.
    destruct (forOf l (tracked_body fileContents latestVersion kind t) [])
      as [s [[]|e]] eqn:Et.
    + intros [= <- <-]. split; [reflexivity|].
      apply forOf_ok with (classify := classifyT t) in Et;
        [|intros; apply tracked_body_store].
      destruct Et as [-> Hall]. now apply via_tracked with (t := t).
    + apply forOf_throw with (classify := classifyT t) in Et;
        [|intros; apply tracked_body_store].
      destruct Et as (l1 & n & b & l2 & Hl & Ht & -> & Hall).
      unfold bootstrap_pass, JS.entries.
      destruct (forOf l (bootstrap_body fileContents latestVersion kind) _)
        as [s' [[]|e']] eqn:Eb; [|discriminate].
      intros [= <- <-]. split; [reflexivity|].
      apply forOf_ok with (classify := classifyB) in Eb;
        [|intros; apply bootstrap_body_store].
      destruct Eb as [-> Hallb].
      eapply via_bootstrap; eauto. eapply fallback_thrown; eauto.
  - unfold tracked_pass, require_tracker, bind, throw, bootstrap_pass, JS.entries.
    destruct (forOf l (bootstrap_body fileContents latestVersion kind) [])
      as [s' [[]|e']] eqn:Eb; [|discriminate].
    intros [= <- <-]. split; [reflexivity|].
    apply forOf_ok with (classify := classifyB) in Eb;
      [|intros; apply bootstrap_body_store].
    destruct Eb as [-> Hallb].
    eapply via_bootstrap; eauto. constructor.
Qed.

(** Every decision present when the [catch] block starts was taken by
    the [try] loop for a build of the catalog. *)
Lemma fallback_entries l trackerFile acc name d :
  JS.wf l -> fallback_from l trackerFile acc -> JS.get acc name = Some d ->
  exists t b, trackerFile = Some t /\ In (name, b) l /\ classifyT t name b = Ok (Some d).
Proof.
  intros Hwf Hf Hget. destruct Hf as [|t l1 n0 b0 l2 e Hl Ht Hall]; [discriminate|].
  assert (Hwf1 : JS.wf l1).
  { unfold JS.wf, JS.keys in *. subst l. rewrite map_app in Hwf.
    now apply NoDup_app_remove_r in Hwf. }
  rewrite get_assignments in Hget by assumption.
  destruct (JS.get l1 name) as [b|] eqn:Eg; [|discriminate].
  apply ObjFacts.get_some_in in Eg.
  destruct (classifyT t name b) as [[d'|]|e'] eqn:Ec; try discriminate.
  simpl in Hget. inversion Hget; subst d'.
  exists t, b. repeat split; auto. subst l. apply in_or_app. now left.
Qed.

Lemma fallback_wf l trackerFile acc : fallback_from l trackerFile acc -> JS.wf acc.
Proof.
  intros [|]; [constructor|]. apply wf_assignments. constructor.
Qed.

Lemma fallback_keys l trackerFile acc name :
  fallback_from l trackerFile acc -> In name (JS.keys acc) -> In name (JS.keys l).
Proof.
  intros [|t l1 n0 b0 l2 e Hl Ht Hall] Hin; [contradiction|].
  apply keys_assignments in Hin. destruct Hin as [[]|Hin].
  subst l. unfold JS.keys in *. rewrite map_app. apply in_or_app. now left.
Qed.

(** *** What the two classifications decide *)

Lemma classifyB_disabled name b : disabled kind b = true -> classifyB name b = Ok None.
Proof. unfold classify_bootstrap. now intros ->. Qed.

Lemma classifyB_gated name b :
  disabled kind b = false -> gate name b = Ok true -> classifyB name b = Ok None.
Proof. unfold classify_bootstrap. now intros -> ->. Qed.

Lemma classifyB_enabled name b od :
  disabled kind b = false -> gate name b = Ok false -> classifyB name b = Ok od ->
  exists data, fileContents name = Some data /\ od = Some (entry data b create None).
Proof.
  unfold classify_bootstrap. intros -> ->.
  destruct (fileContents name) as [data|]; [|discriminate].
  intros [= <-]. eauto.
Qed.

Lemma classifyB_ok_gate name b od :
  disabled kind b = false -> classifyB name b = Ok od -> exists g, gate name b = Ok g.
Proof.
  unfold classify_bootstrap. intros ->.
  destruct (gate name b) as [g|e]; [eauto|discriminate].
Qed.

Lemma classifyT_ok_gate t name b od :
  disabled kind b = false -> classifyT t name b = Ok od -> exists g, gate name b = Ok g.
Proof.
  unfold classify_tracked. intros ->.
  destruct (fileContents name); [|discriminate].
  destruct (gate name b) as [g|e]; [eauto|discriminate].
Qed.

Lemma classifyT_gated t name b od :
  disabled kind b = false -> gate name b = Ok true -> classifyT t name b = Ok od ->
  od = None.
Proof.
  unfold classify_tracked. intros -> ->.
  destruct (fileContents name); [|discriminate]. now intros [= <-].
Qed.

Lemma classifyT_disabled t name b od :
  disabled kind b = true -> classifyT t name b = Ok od ->
  exists data tb, fileContents name = Some data /\ JS.get t name = Some tb /\
                  od = Some (entry data b ignore (t_assetId tb)).
Proof.
  unfold classify_tracked. intros ->.
  destruct (fileContents name) as [data|]; [|discriminate].
  destruct (JS.get t name) as [tb|]; [|discriminate].
  intros [= <-]. eauto.
Qed.

(** Rules 3 to 6 of the [try] loop. *)
Lemma classifyT_enabled t name b od :
  disabled kind b = false -> gate name b = Ok false -> classifyT t name b = Ok od ->
  exists data, fileContents name = Some data /\
    od = Some
      match JS.get t name with
      | None => entry data b create None
      | Some tb =>
          if negb (String.eqb (t_version tb) latestVersion) then entry data b create None
          else if negb (String.eqb (md5_hex data) (t_md5 tb))
               then entry data b update (t_assetId tb)
               else entry data b ignore (t_assetId tb)
      end.
Proof.
  unfold classify_tracked. intros -> ->.
  destruct (fileContents name) as [data|]; [|discriminate].
  intros H. exists data. split; [reflexivity|].
  destruct (JS.get t name) as [tb|]; [|now inversion H].
  destruct (negb (String.eqb (t_version tb) latestVersion)); [now inversion H|].
  destruct (negb (String.eqb (md5_hex data) (t_md5 tb))); now inversion H.
Qed.

(** What can make an iteration of the [try] loop throw. *)
Lemma classifyT_throw t name b e :
  classifyT t name b = Throw e ->
  fileContents name = None \/
  (disabled kind b = true /\ JS.get t name = None) \/
  (disabled kind b = false /\ gate name b = Throw e).
Proof.
  unfold classify_tracked.
  destruct (fileContents name) as [data|]; [|now left]. right.
  destruct (disabled kind b).
  - left. destruct (JS.get t name); [discriminate|]. now split.
  - right. split; [reflexivity|].
    destruct (gate name b) as [[|]|e0]; try discriminate.
    + destruct (JS.get t name) as [tb|]; [|discriminate].
      destruct (negb (String.eqb (t_version tb) latestVersion)); [discriminate|].
      destruct (negb (String.eqb (md5_hex data) (t_md5 tb))); discriminate.
    + congruence.
Qed.

Lemma classifyB_throw name b e :
  classifyB name b = Throw e ->
  disabled kind b = false /\
  (gate name b = Throw e \/ (fileContents name = None /\ e = ReadError name)).
Proof.
  unfold classify_bootstrap.
  destruct (disabled kind b); [discriminate|]. intros H. split; [reflexivity|].
  destruct (gate name b) as [[|]|e0]; try discriminate.
  - destruct (fileContents name); [discriminate|]. inversion H. now right.
  - inversion H. now left.
Qed.

Lemma gate_throw name b e :
  gate name b = Throw e ->
  exists mv, min_version b = Some mv /\ e = InvalidMinVersion name mv /\
             kind = stable /\ mv <> EmptyString /\ semver_valid mv = false.
Proof.
  unfold version_gate.
  destruct (Kind_eqb kind stable) eqn:Ek; simpl; [|discriminate].
  destruct (min_version b) as [mv|]; simpl; [|discriminate].
  destruct (String.eqb mv EmptyString) eqn:Em; simpl; [discriminate|].
  destruct (semver_valid mv) eqn:Ev; simpl.
  - destruct (semver_coerce latestVersion); discriminate.
  - intros [= <-]. exists mv. repeat split; auto.
    + destruct kind; [reflexivity|discriminate].
    + now apply String.eqb_neq.
Qed.

(** *** Decisions in the returned map *)

Lemma same_build (l : JS.obj BuildSchema) name b b' :
  JS.wf l -> In (name, b) l -> In (name, b') l -> b' = b.
Proof.
  intros Hwf H1 H2.
  apply ObjFacts.in_wf_get in H1; auto. apply ObjFacts.in_wf_get in H2; auto.
  congruence.
Qed.

(** A build the version gate skips has no entry. *)
Lemma run_gated trackerFile l ig newBuilds name b :
  JS.wf l -> In (name, b) l ->
  disabled kind b = false -> gate name b = Ok true ->
  run trackerFile l = Ok (ig, newBuilds) ->
  JS.get newBuilds name = None.
Proof.
  intros Hwf Hin Hd Hg Hrun. apply shouldBuild_ok in Hrun.
  destruct Hrun as [_ [t -> -> Hall|acc Hf -> Hall]];
    rewrite get_assignments by assumption;
    rewrite (ObjFacts.in_wf_get _ _ _ Hwf Hin).
  - destruct (Hall _ _ Hin) as [od Hod]. rewrite Hod.
    now rewrite (classifyT_gated _ _ _ _ Hd Hg Hod).
  - rewrite (classifyB_gated _ _ Hd Hg).
    destruct (JS.get acc name) as [d|] eqn:Ea; [|reflexivity].
    destruct (fallback_entries _ _ _ _ _ Hwf Hf Ea) as (t & b' & _ & Hin' & Hc).
    rewrite (same_build _ _ _ _ Hwf Hin Hin') in Hc.
    apply (classifyT_gated _ _ _ _ Hd Hg) in Hc. discriminate.
Qed.

(** A build that is neither disabled nor skipped by the gate has an
    entry: the one rules 3 to 6 give it when the [try] loop ran to its
    end, a [create] without asset id otherwise. *)
Lemma run_enabled trackerFile l ig newBuilds name b :
  JS.wf l -> In (name, b) l ->
  disabled kind b = false -> gate name b = Ok false ->
  run trackerFile l = Ok (ig, newBuilds) ->
  exists data, fileContents name = Some data /\
    (JS.get newBuilds name = Some (entry data b create None) \/
     exists t, trackerFile = Some t /\ classifyT t name b = Ok (JS.get newBuilds name)).
Proof.
  intros Hwf Hin Hd Hg Hrun. apply shouldBuild_ok in Hrun.
  destruct Hrun as [_ [t -> -> Hall|acc Hf -> Hall]].
  - destruct (Hall _ _ Hin) as [od Hod].
    destruct (classifyT_enabled _ _ _ _ Hd Hg Hod) as (data & Hdata & Hodeq).
    exists data. split; [assumption|]. right. exists t. split; [reflexivity|].
    rewrite get_assignments by assumption.
    rewrite (ObjFacts.in_wf_get _ _ _ Hwf Hin), Hod, Hodeq. reflexivity.
  - destruct (Hall _ _ Hin) as [od Hod].
    destruct (classifyB_enabled _ _ _ Hd Hg Hod) as (data & Hdata & ->).
    exists data. split; [assumption|]. left.
    rewrite get_assignments by assumption.
    now rewrite (ObjFacts.in_wf_get _ _ _ Hwf Hin), Hod.
Qed.

(** An entry of a disabled build was assigned by the [try] loop. *)
Lemma run_disabled trackerFile l ig newBuilds name b d :
  JS.wf l -> In (name, b) l -> disabled kind b = true ->
  run trackerFile l = Ok (ig, newBuilds) ->
  JS.get newBuilds name = Some d ->
  exists t tb data,
    trackerFile = Some t /\ JS.get t name = Some tb /\ fileContents name = Some data /\
    d = entry data b ignore (t_assetId tb).
Proof.
  intros Hwf Hin Hd Hrun Hget. apply shouldBuild_ok in Hrun.
  destruct Hrun as [_ [t -> -> Hall|acc Hf -> Hall]];
    rewrite get_assignments in Hget by assumption;
    rewrite (ObjFacts.in_wf_get _ _ _ Hwf Hin) in Hget.
  - destruct (Hall _ _ Hin) as [od Hod]. rewrite Hod in Hget.
    destruct (classifyT_disabled _ _ _ _ Hd Hod) as (data & tb & Hdata & Htb & ->).
    inversion Hget; subst. exists t, tb, data. auto.
  - rewrite (classifyB_disabled _ _ Hd) in Hget.
    destruct (fallback_entries _ _ _ _ _ Hwf Hf Hget) as (t & b' & -> & Hin' & Hc).
    rewrite (same_build _ _ _ _ Hwf Hin Hin') in Hc.
    destruct (classifyT_disabled _ _ _ _ Hd Hc) as (data & tb & Hdata & Htb & Heq).
    inversion Heq; subst. exists t, tb, data. auto.
Qed.

(** With every file readable and a tracker record for every disabled
    build, a run that returns has run the [try] loop to its end. *)
Lemma run_tracked_complete t l ig newBuilds :
  (forall name b, In (name, b) l -> fileContents name <> None) ->
  (forall name b, In (name, b) l -> disabled kind b = true -> JS.get t name <> None) ->
  run (Some t) l = Ok (ig, newBuilds) ->
  newBuilds = assignments (classifyT t) l [] /\
  forall name b, In (name, b) l -> exists od, classifyT t name b = Ok od.
Proof.
  intros Hfiles Hrecs Hrun. apply shouldBuild_ok in Hrun.
  destruct Hrun as [_ [t' [= <-] -> Hall|acc Hf -> Hall]]; [now split|].
  exfalso. inversion Hf as [|t' l1 n0 b0 l2 e Hl Ht Hall1]; subst.
  assert (Hin : In (n0, b0) (l1 ++ (n0, b0) :: l2)) by (apply in_or_app; right; now left).
  apply classifyT_throw in Ht. destruct Ht as [Hnone|[[Hd Hnone]|[Hd Hg]]].
  - now apply (Hfiles _ _ Hin).
  - now apply (Hrecs _ _ Hin Hd).
  - destruct (Hall _ _ Hin) as [od Hod].
    destruct (classifyB_ok_gate _ _ _ Hd Hod) as [g Hg']. congruence.
Qed.

(** Names of the returned map. *)
Lemma run_keys trackerFile l ig newBuilds :
  run trackerFile l = Ok (ig, newBuilds) ->
  JS.wf newBuilds /\ forall name, In name (JS.keys newBuilds) -> In name (JS.keys l).
Proof.
  intros Hrun. apply shouldBuild_ok in Hrun.
  destruct Hrun as [_ [t -> -> Hall|acc Hf -> Hall]].
  - split; [apply wf_assignments; constructor|].
    intros name Hin. apply keys_assignments in Hin. now destruct Hin as [[]|].
  - split; [apply wf_assignments; eapply fallback_wf; eauto|].
    intros name Hin. apply keys_assignments in Hin. destruct Hin as [Hin|]; auto.
    eapply fallback_keys; eauto.
Qed.

End ShouldBuildFacts.

(* ===================================================================== *)
(** ** Properties of the classification *)
(* ===================================================================== *)

Section Classification.

Context {P : Platform}.

Implicit Types (trackerFile : option (JS.obj Tracked))
  (fileContents : string -> option string) (latestVersion name : string)
  (kind : Kind) (loadedBuilds : JS.obj BuildSchema) (b : BuildSchema)
  (newBuilds : BuildDefs).

Lemma gate_skips latestVersion name b mv parsedLatest :
  min_version b = Some mv -> semver_valid mv = true ->
  semver_coerce latestVersion = Some parsedLatest ->
  semver_lt parsedLatest mv = true ->
  version_gate latestVersion stable name b = Ok true.
Proof.
  intros Hmv Hvalid Hc Hlt. unfold version_gate. rewrite Hmv. simpl.
  destruct (String.eqb mv EmptyString) eqn:Em.
  - apply String.eqb_eq in Em. subst mv. rewrite semver_valid_empty in Hvalid.
    discriminate.
  - simpl. now rewrite Hvalid, Hc, Hlt.
Qed.

Lemma gate_rejects latestVersion name b mv :
  min_version b = Some mv -> mv <> EmptyString -> semver_valid mv = false ->
  version_gate latestVersion stable name b = Throw (InvalidMinVersion name mv).
Proof.
  intros Hmv Hne Hvalid. unfold version_gate. rewrite Hmv. simpl.
  apply String.eqb_neq in Hne. now rewrite Hne, Hvalid.
Qed.

Lemma not_disabled_on_stable b :
  active b <> Some false -> only b <> Some nightly -> disabled stable b = false.
Proof.
  unfold disabled. intros Ha Ho.
  destruct (active b) as [[|]|]; try congruence;
    destruct (only b) as [[|]|]; try congruence; reflexivity.
Qed.

(** C5: on the stable channel, an active build (not switched off and
    not restricted to the nightly channel) whose [min_version] is a valid
    version and whose coerced latest version is lower than it has no
    entry in the map [shouldBuild] returns, whether the tracker loaded
    or not. *)
Theorem C5_gated_build_has_no_entry
    trackerFile fileContents latestVersion loadedBuilds name b mv parsedLatest
    ig newBuilds :
  JS.wf loadedBuilds -> In (name, b) loadedBuilds ->
  active b <> Some false -> only b <> Some nightly ->
  min_version b = Some mv -> semver_valid mv = true ->
  semver_coerce latestVersion = Some parsedLatest ->
  semver_lt parsedLatest mv = true ->
  shouldBuild trackerFile fileContents latestVersion stable loadedBuilds
    = Ok (ig, newBuilds) ->
  JS.get newBuilds name = None /\ ~ In name (JS.keys newBuilds).
Proof.
  intros Hwf Hin Ha Ho Hmv Hvalid Hc Hlt Hrun.
  pose proof (not_disabled_on_stable b Ha Ho) as Hd.
  assert (Hnone : JS.get newBuilds name = None).
  { eapply run_gated; eauto. eapply gate_skips; eauto. }
  split; [assumption|]. now apply ObjFacts.get_none_iff.
Qed.

(** C3 (amended): the map [shouldBuild] returns lists no name twice and
    only names of the catalog.  A build that is neither disabled nor
    skipped by the version gate appears in it exactly once; a build the
    version gate skips does not appear; a disabled or channel-mismatched
    build does not appear when the tracker file could not be loaded, and
    appears exactly once when the tracker was loaded, holds a record for
    every disabled build and every build file is readable. *)
Theorem C3_names_of_the_decision_map
    trackerFile fileContents latestVersion kind loadedBuilds ig newBuilds :
  JS.wf loadedBuilds ->
  shouldBuild trackerFile fileContents latestVersion kind loadedBuilds
    = Ok (ig, newBuilds) ->
  NoDup (JS.keys newBuilds) /\
  (forall name, In name (JS.keys newBuilds) -> In name (JS.keys loadedBuilds)) /\
  (forall name b, In (name, b) loadedBuilds -> disabled kind b = false ->
     (version_gate latestVersion kind name b = Ok false /\
      count_occ string_dec (JS.keys newBuilds) name = 1) \/
     (version_gate latestVersion kind name b = Ok true /\
      count_occ string_dec (JS.keys newBuilds) name = 0)) /\
  (trackerFile = None ->
   forall name b, In (name, b) loadedBuilds -> disabled kind b = true ->
     count_occ string_dec (JS.keys newBuilds) name = 0) /\
  (forall t, trackerFile = Some t ->
     (forall name b, In (name, b) loadedBuilds -> fileContents name <> None) ->
     (forall name b, In (name, b) loadedBuilds -> disabled kind b = true ->
        JS.get t name <> None) ->
     forall name b, In (name, b) loadedBuilds -> disabled kind b = true ->
       count_occ string_dec (JS.keys newBuilds) name = 1).
Proof.
  intros Hwf Hrun.
  destruct (run_keys _ _ _ _ _ _ _ Hrun) as [Hnd Hsub].
  assert (Hpresent : forall name d, JS.get newBuilds name = Some d ->
            count_occ string_dec (JS.keys newBuilds) name = 1).
  { intros name d Hget. apply ObjFacts.wf_count_occ; auto.
    eapply ObjFacts.get_some_in_keys; eauto. }
  assert (Habsent : forall name, JS.get newBuilds name = None ->
            count_occ string_dec (JS.keys newBuilds) name = 0).
  { intros name Hget. apply count_occ_not_In. now apply ObjFacts.get_none_iff. }
  repeat split; auto.
  - intros name b Hin Hd.
    pose proof (shouldBuild_ok _ _ _ _ _ _ _ Hrun) as [_ Hvia].
    assert (Hg : exists g, version_gate latestVersion kind name b = Ok g).
    { destruct Hvia as [t _ _ Hall|acc _ _ Hall]; destruct (Hall _ _ Hin) as [od Hod].
      - eapply classifyT_ok_gate; eauto.
      - eapply classifyB_ok_gate; eauto. }
    destruct Hg as [[|] Hg].
    + right. split; [assumption|]. apply Habsent. eapply run_gated; eauto.
    + left. split; [assumption|].
      destruct (run_enabled _ _ _ _ _ _ _ _ _ Hwf Hin Hd Hg Hrun)
        as (data & _ & [Hget|(t & _ & Hc)]).
      * eapply Hpresent; eauto.
      * destruct (classifyT_enabled _ _ _ _ _ _ _ Hd Hg Hc) as (data' & _ & Heq).
        eapply Hpresent; eauto.
  - intros -> name b Hin Hd. apply Habsent.
    destruct (JS.get newBuilds name) as [d|] eqn:Eg; [|reflexivity].
    destruct (run_disabled _ _ _ _ _ _ _ _ _ _ Hwf Hin Hd Hrun Eg)
      as (t & _ & _ & Ht & _). discriminate.
  - intros t -> Hfiles Hrecs name b Hin Hd.
    destruct (run_tracked_complete _ _ _ _ _ _ _ Hfiles Hrecs Hrun) as [Heq Hall].
    destruct (Hall _ _ Hin) as [od Hod].
    destruct (classifyT_disabled _ _ _ _ _ _ _ Hd Hod) as (data & tb & _ & _ & ->).
    apply Hpresent with (d := decision latestVersion data b ignore (t_assetId tb)).
    rewrite Heq, get_assignments by assumption.
    now rewrite (ObjFacts.in_wf_get _ _ _ Hwf Hin), Hod.
Qed.

(** C6 (amended): a build that is neither disabled or channel-mismatched
    nor skipped by the version gate, and whose tracked version differs
    from the latest version, is given [create] without asset id, whatever
    its tracked digest. *)
Theorem C6_version_bump_creates
    t fileContents latestVersion kind loadedBuilds name b tb ig newBuilds :
  JS.wf loadedBuilds -> In (name, b) loadedBuilds ->
  disabled kind b = false ->
  version_gate latestVersion kind name b = Ok false ->
  JS.get t name = Some tb -> t_version tb <> latestVersion ->
  shouldBuild (Some t) fileContents latestVersion kind loadedBuilds
    = Ok (ig, newBuilds) ->
  exists data, fileContents name = Some data /\
    JS.get newBuilds name = Some (decision latestVersion data b create None).
Proof.
  intros Hwf Hin Hd Hg Htb Hne Hrun.
  destruct (run_enabled _ _ _ _ _ _ _ _ _ Hwf Hin Hd Hg Hrun)
    as (data & Hdata & [Hget|(t' & [= <-] & Hc)]); exists data; split; auto.
  destruct (classifyT_enabled _ _ _ _ _ _ _ Hd Hg Hc) as (data' & Hdata' & Heq).
  rewrite Heq. rewrite Hdata in Hdata'. inversion Hdata'; subst data'.
  rewrite Htb. apply String.eqb_neq in Hne. now rewrite Hne.
Qed.

Lemma shouldBuild_throw
    trackerFile fileContents latestVersion kind loadedBuilds e :
  shouldBuild trackerFile fileContents latestVersion kind loadedBuilds = Throw e ->
  exists name b, In (name, b) loadedBuilds /\
    classify_bootstrap fileContents latestVersion kind name b = Throw e.
Proof.
  assert (Hboot : forall s,
    match bootstrap_pass fileContents latestVersion kind loadedBuilds s with
    | (newBuilds, Ok _) => Ok (all_ignore newBuilds, newBuilds)
    | (_, Throw e0) => Throw e0
    end = Throw e ->
    exists name b, In (name, b) loadedBuilds /\
      classify_bootstrap fileContents latestVersion kind name b = Throw e).
  { intros s. unfold bootstrap_pass, JS.entries.
    destruct (forOf loadedBuilds (bootstrap_body fileContents latestVersion kind) s)
      as [s' [[]|e']] eqn:Eb; [discriminate|]. intros [= ->].
    apply forOf_throw
      with (classify := classify_bootstrap fileContents latestVersion kind) in Eb;
      [|intros; apply bootstrap_body_store].
    destruct Eb as (l1 & n & b & l2 & -> & Ht & _).
    exists n, b. split; [apply in_or_app; right; now left|assumption]. }
  unfold shouldBuild, tryCatch.
  destruct (tracked_pass trackerFile fileContents latestVersion kind loadedBuilds [])
    as [s [[]|e0]]; [discriminate|]. apply Hboot.
Qed.



(** C4 (amended): on the stable channel, for every latest version, if
    a build that is not disabled or channel-mismatched has a non-empty
    [min_version] that is not a valid version, [shouldBuild] throws
    instead of returning; the error is the invalid-[min_version] error of
    some build whenever every build file is readable.  On the nightly
    channel the version gate examines no [min_version] and lets every
    build through. *)
Theorem C4_invalid_min_version_aborts_stable
    trackerFile fileContents latestVersion loadedBuilds name b mv :
  In (name, b) loadedBuilds ->
  disabled stable b = false ->
  min_version b = Some mv -> mv <> EmptyString -> semver_valid mv = false ->
  (exists e,
     shouldBuild trackerFile fileContents latestVersion stable loadedBuilds = Throw e /\
     ((forall name' b', In (name', b') loadedBuilds -> fileContents name' <> None) ->
      exists name' mv', e = InvalidMinVersion name' mv')) /\
  (forall name' b', version_gate latestVersion nightly name' b' = Ok false).
Proof.
  intros Hin Hd Hmv Hne Hvalid. split; [|reflexivity].
  pose proof (gate_rejects latestVersion name b mv Hmv Hne Hvalid) as Hg.
  destruct (shouldBuild trackerFile fileContents latestVersion stable loadedBuilds)
    as [[ig newBuilds]|e] eqn:Hrun.
  - exfalso. apply shouldBuild_ok in Hrun.
    destruct Hrun as [_ [t _ _ Hall|acc _ _ Hall]]; destruct (Hall _ _ Hin) as [od Hod].
    + destruct (classifyT_ok_gate _ _ _ _ _ _ _ Hd Hod) as [g Hg']. congruence.
    + destruct (classifyB_ok_gate _ _ _ _ _ _ Hd Hod) as [g Hg']. congruence.
  - exists e. split; [reflexivity|]. intros Hfiles.
    apply shouldBuild_throw in Hrun. destruct Hrun as (n' & b' & Hin' & Hc).
    apply classifyB_throw in Hc. destruct Hc as [_ [Hg'|[Hnone _]]].
    + apply gate_throw in Hg'. destruct Hg' as (mv' & _ & -> & _). eauto.
    + exfalso. eapply Hfiles; eauto.
Qed.


(** *** When the [try] loop does not throw *)

(** [shouldBuild] returns whenever every build file is readable and
    every [min_version] the version gate examines is valid. *)
Lemma shouldBuild_returns
    trackerFile fileContents latestVersion kind loadedBuilds :
  (forall name b, In (name, b) loadedBuilds -> fileContents name <> None) ->
  (forall name b, In (name, b) loadedBuilds -> disabled kind b = false ->
     exists g, version_gate latestVersion kind name b = Ok g) ->
  exists ig newBuilds,
    shouldBuild trackerFile fileContents latestVersion kind loadedBuilds
    = Ok (ig, newBuilds).
Proof.
  intros Hfiles Hgates.
  destruct (shouldBuild trackerFile fileContents latestVersion kind loadedBuilds)
    as [[ig newBuilds]|e] eqn:Hrun; [eauto|].
  exfalso. apply shouldBuild_throw in Hrun. destruct Hrun as (n & b & Hin & Hc).
  apply classifyB_throw in Hc. destruct Hc as [Hd [Hg|[Hnone _]]].
  - destruct (Hgates _ _ Hin Hd) as [g Hg']. congruence.
  - eapply Hfiles; eauto.
Qed.

(** With a tracker record for every disabled build and every file
    readable, a disabled or channel-mismatched build is given [ignore]
    and the tracked asset id. *)
Lemma disabled_build_with_record_is_ignored
    t fileContents latestVersion kind loadedBuilds ig newBuilds name b :
  JS.wf loadedBuilds -> In (name, b) loadedBuilds -> disabled kind b = true ->
  (forall n b', In (n, b') loadedBuilds -> fileContents n <> None) ->
  (forall n b', In (n, b') loadedBuilds -> disabled kind b' = true ->
     JS.get t n <> None) ->
  shouldBuild (Some t) fileContents latestVersion kind loadedBuilds
    = Ok (ig, newBuilds) ->
  exists tb data, JS.get t name = Some tb /\ fileContents name = Some data /\
    JS.get newBuilds name = Some (decision latestVersion data b ignore (t_assetId tb)).
Proof.
  intros Hwf Hin Hd Hfiles Hrecs Hrun.
  destruct (run_tracked_complete _ _ _ _ _ _ _ Hfiles Hrecs Hrun) as [Heq Hall].
  destruct (Hall _ _ Hin) as [od Hod].
  destruct (classifyT_disabled _ _ _ _ _ _ _ Hd Hod) as (data & tb & Hdata & Htb & ->).
  exists tb, data. repeat split; auto.
  rewrite Heq, get_assignments by assumption.
  now rewrite (ObjFacts.in_wf_get _ _ _ Hwf Hin), Hod.
Qed.

(** Every decision holds the latest version and the digest of the
    build's file. *)
Lemma run_decision_fields
    trackerFile fileContents latestVersion kind loadedBuilds ig newBuilds name b d :
  JS.wf loadedBuilds -> In (name, b) loadedBuilds ->
  shouldBuild trackerFile fileContents latestVersion kind loadedBuilds
    = Ok (ig, newBuilds) ->
  JS.get newBuilds name = Some d ->
  exists data, fileContents name = Some data /\
    version d = latestVersion /\ md5 d = md5_hex data.
Proof.
  intros Hwf Hin Hrun Hget.
  destruct (disabled kind b) eqn:Hd.
  - destruct (run_disabled _ _ _ _ _ _ _ _ _ _ Hwf Hin Hd Hrun Hget)
      as (t & tb & data & _ & _ & Hdata & ->).
    exists data. auto.
  - pose proof (shouldBuild_ok _ _ _ _ _ _ _ Hrun) as [_ Hvia].
    assert (Hg : exists g, version_gate latestVersion kind name b = Ok g).
    { destruct Hvia as [t _ _ Hall|acc _ _ Hall]; destruct (Hall _ _ Hin) as [od Hod].
      - eapply classifyT_ok_gate; eauto.
      - eapply classifyB_ok_gate; eauto. }
    destruct Hg as [[|] Hg].
    + rewrite (run_gated _ _ _ _ _ _ _ _ _ Hwf Hin Hd Hg Hrun) in Hget. discriminate.
    + destruct (run_enabled _ _ _ _ _ _ _ _ _ Hwf Hin Hd Hg Hrun)
        as (data & Hdata & [Hget'|(t & _ & Hc)]); exists data; split; auto.
      * rewrite Hget' in Hget. inversion Hget; subst d. auto.
      * destruct (classifyT_enabled _ _ _ _ _ _ _ Hd Hg Hc) as (data' & Hdata' & Heq).
        rewrite Hdata in Hdata'. inversion Hdata'; subst data'.
        rewrite Hget in Heq. inversion Heq as [Hd']. clear Heq.
        destruct (JS.get t name) as [tb|]; [|now subst d].
        destruct (negb (String.eqb (t_version tb) latestVersion)); [now subst d|].
        destruct (negb (String.eqb (md5_hex data) (t_md5 tb))); now subst d.
Qed.

(** The second of two runs on the same catalog, files and latest
    version, reading the versions and digests the first run decided,
    gives [ignore] to every build it records, provided the tracker
    holds a record for every disabled build and every file is
    readable. *)
Lemma second_run_ignores_all
    trackerFile t2 fileContents latestVersion kind loadedBuilds ig1 newBuilds1 :
  JS.wf loadedBuilds ->
  shouldBuild trackerFile fileContents latestVersion kind loadedBuilds
    = Ok (ig1, newBuilds1) ->
  (forall name d, JS.get newBuilds1 name = Some d ->
     exists tb, JS.get t2 name = Some tb /\
       t_version tb = version d /\ t_md5 tb = md5 d) ->
  (forall name b, In (name, b) loadedBuilds -> fileContents name <> None) ->
  (forall name b, In (name, b) loadedBuilds -> disabled kind b = true ->
     JS.get t2 name <> None) ->
  exists newBuilds2,
    shouldBuild (Some t2) fileContents latestVersion kind loadedBuilds
    = Ok (true, newBuilds2) /\
    forall name d, JS.get newBuilds2 name = Some d -> action d = ignore.
Proof.
  intros Hwf Hrun1 Hpersist Hfiles Hrecs.
  assert (Hgates : forall name b, In (name, b) loadedBuilds -> disabled kind b = false ->
            exists g, version_gate latestVersion kind name b = Ok g).
  { intros name b Hin Hd.
    pose proof (shouldBuild_ok _ _ _ _ _ _ _ Hrun1) as [_ Hvia].
    destruct Hvia as [t _ _ Hall|acc _ _ Hall]; destruct (Hall _ _ Hin) as [od Hod].
    - eapply classifyT_ok_gate; eauto.
    - eapply classifyB_ok_gate; eauto. }
  destruct (shouldBuild_returns (Some t2) _ _ _ _ Hfiles Hgates) as (ig2 & newBuilds2 & Hrun2).
  assert (Hall2 : forall name d, JS.get newBuilds2 name = Some d -> action d = ignore).
  { intros name d Hget.
    destruct (run_tracked_complete _ _ _ _ _ _ _ Hfiles Hrecs Hrun2) as [Heq Hall].
    pose proof Hget as Hget'.
    rewrite Heq, get_assignments in Hget' by assumption.
    destruct (JS.get loadedBuilds name) as [b|] eqn:Eb; [|discriminate].
    apply ObjFacts.get_some_in in Eb.
    destruct (Hall _ _ Eb) as [od Hod]. rewrite Hod in Hget'.
    destruct od as [d'|]; [|discriminate]. inversion Hget'; subst d'.
    destruct (disabled kind b) eqn:Hd.
    - destruct (classifyT_disabled _ _ _ _ _ _ _ Hd Hod) as (data & tb & _ & _ & Heq').
      now inversion Heq'.
    - destruct (Hgates _ _ Eb Hd) as [[|] Hg].
      + apply (classifyT_gated _ _ _ _ _ _ _ Hd Hg) in Hod. discriminate.
      + destruct (classifyT_enabled _ _ _ _ _ _ _ Hd Hg Hod) as (data & Hdata & Heq').
        destruct (run_enabled _ _ _ _ _ _ _ _ _ Hwf Eb Hd Hg Hrun1)
          as (data1 & Hdata1 & Hfirst).
        assert (Hd1 : exists d1, JS.get newBuilds1 name = Some d1).
        { destruct Hfirst as [Hget1|(t & _ & Hc)]; [eauto|].
          destruct (classifyT_enabled _ _ _ _ _ _ _ Hd Hg Hc) as (? & _ & Hc').
          eauto. }
        destruct Hd1 as [d1 Hd1].
        destruct (run_decision_fields _ _ _ _ _ _ _ _ _ _ Hwf Eb Hrun1 Hd1)
          as (data2 & Hdata2 & Hv & Hm).
        destruct (Hpersist _ _ Hd1) as (tb & Htb & Htv & Htm).
        rewrite Hdata in Hdata2. inversion Hdata2; subst data2.
        rewrite Htb in Heq'. rewrite Htv, Hv, Htm, Hm in Heq'.
        rewrite !String.eqb_refl in Heq'. simpl in Heq'. now inversion Heq'. }
  assert (Hig : ig2 = true).
  { pose proof (shouldBuild_ok _ _ _ _ _ _ _ Hrun2) as [-> _].
    destruct (run_keys _ _ _ _ _ _ _ Hrun2) as [Hwf2 _].
    unfold all_ignore. apply forallb_forall. intros d Hin.
    unfold JS.values in Hin. apply in_map_iff in Hin.
    destruct Hin as ([n d'] & <- & Hin). simpl.
    rewrite (Hall2 n d'); [reflexivity|]. now apply ObjFacts.in_wf_get. }
  subst ig2. eauto.
Qed.

End Classification.

(** C5 on a run: latest version [2.1.2.1], [min_version] [2.1.3]. *)
Lemma C5_gated_build_has_no_entry_witness :
  shouldBuild (P := Ref.platform)
    (Some [("builds/a.json", Ref.record "2.1.1" "builds/a.json" (Some 7%N))])
    Ref.files "2.1.2.1" stable
    [("builds/a.json", Ref.build_def None None (Some "2.1.3"))]
  = Ok (true, []) /\
  JS.get (V := BuildDef) [] "builds/a.json" = None /\
  ~ In "builds/a.json" (JS.keys (V := BuildDef) []).
Proof.
  split; [reflexivity|].
  apply (@C5_gated_build_has_no_entry Ref.platform
           (Some [("builds/a.json", Ref.record "2.1.1" "builds/a.json" (Some 7%N))])
           Ref.files "2.1.2.1"
           [("builds/a.json", Ref.build_def None None (Some "2.1.3"))]
           "builds/a.json" (Ref.build_def None None (Some "2.1.3")) "2.1.3"
           (2, 1, 2)%N true []).
  - repeat constructor. simpl. tauto.
  - simpl. now left.
  - simpl. discriminate.
  - simpl. discriminate.
  - reflexivity.
  - reflexivity.
  - reflexivity.
  - reflexivity.
  - reflexivity.
Defined.

(** *** The claims on concrete runs *)

Ltac wf_keys := repeat constructor; simpl; intuition discriminate.

(** C3 (amended) on a first run with an enabled, a disabled and a gated build. *)
Lemma C3_names_of_the_decision_map_witness :
  shouldBuild (P := Ref.platform) None Ref.files "2.1.2.1" stable
    [("builds/a.json", Ref.enabled_build);
     ("builds/d.json", Ref.disabled_build);
     ("builds/g.json", Ref.build_def None None (Some "2.1.3"))]
  = Ok (false,
        [("builds/a.json",
          decision (P := Ref.platform) "2.1.2.1" "contents of builds/a.json"
            Ref.enabled_build create None)]) /\
  NoDup ["builds/a.json"].
Proof.
  split; [reflexivity|].
  apply (@C3_names_of_the_decision_map Ref.platform None Ref.files "2.1.2.1" stable
           [("builds/a.json", Ref.enabled_build);
            ("builds/d.json", Ref.disabled_build);
            ("builds/g.json", Ref.build_def None None (Some "2.1.3"))]
           false
           [("builds/a.json",
             decision (P := Ref.platform) "2.1.2.1" "contents of builds/a.json"
               Ref.enabled_build create None)]).
  - wf_keys.
  - reflexivity.
Defined.

(** C3 as stated fails: a build of the catalog that the version gate
    skips is absent from the returned map. *)
Lemma C3_counterexample :
  shouldBuild (P := Ref.platform) None Ref.files "2.1.2.1" stable
    [("builds/g.json", Ref.build_def None None (Some "2.1.3"))]
  = Ok (true, []) /\
  In "builds/g.json"
     (JS.keys [("builds/g.json", Ref.build_def None None (Some "2.1.3"))]) /\
  count_occ string_dec (JS.keys (V := BuildDef) []) "builds/g.json" <> 1.
Proof.
  split; [reflexivity|]. split; [now left|]. simpl. discriminate.
Qed.

(** C6 (amended) on a run: tracked at [2.1.1], latest version [2.1.2]. *)
Lemma C6_version_bump_creates_witness :
  exists data, Ref.files "builds/a.json" = Some data /\
    JS.get
      [("builds/a.json",
        decision (P := Ref.platform) "2.1.2" "contents of builds/a.json"
          Ref.enabled_build create None)]
      "builds/a.json"
    = Some (decision (P := Ref.platform) "2.1.2" data Ref.enabled_build create None).
Proof.
  apply (@C6_version_bump_creates Ref.platform
           [("builds/a.json", Ref.record "2.1.1" "builds/a.json" (Some 7%N))]
           Ref.files "2.1.2" stable
           [("builds/a.json", Ref.enabled_build)]
           "builds/a.json" Ref.enabled_build
           (Ref.record "2.1.1" "builds/a.json" (Some 7%N)) false).
  - wf_keys.
  - now left.
  - reflexivity.
  - reflexivity.
  - reflexivity.
  - simpl. discriminate.
  - reflexivity.
Defined.

(** C6 as stated fails: a disabled build whose tracked version differs
    from the latest version is given [ignore] and keeps its asset id. *)
Lemma C6_counterexample :
  t_version (Ref.record "2.1.1" "builds/a.json" (Some 7%N)) <> "2.1.2" /\
  shouldBuild (P := Ref.platform)
    (Some [("builds/a.json", Ref.record "2.1.1" "builds/a.json" (Some 7%N))])
    Ref.files "2.1.2" stable
    [("builds/a.json", Ref.disabled_build)]
  = Ok (true,
        [("builds/a.json",
          {| version := "2.1.2"; md5 := "contents of builds/a.json";
             build := Ref.disabled_build; action := ignore; assetId := Some 7%N |})]).
Proof.
  split; [simpl; discriminate|reflexivity].
Qed.

(** C4 (amended) on a stable run with the [min_version] [not-a-version]. *)
Lemma C4_invalid_min_version_aborts_stable_witness :
  exists e,
    shouldBuild (P := Ref.platform)
      (Some []) Ref.files "2.1.2" stable
      [("builds/a.json", Ref.build_def None None (Some "not-a-version"))]
    = Throw e /\
    ((forall name' b',
        In (name', b') [("builds/a.json", Ref.build_def None None (Some "not-a-version"))] ->
        Ref.files name' <> None) ->
     exists name' mv', e = InvalidMinVersion name' mv').
Proof.
  apply (@C4_invalid_min_version_aborts_stable Ref.platform
           (Some []) Ref.files "2.1.2"
           [("builds/a.json", Ref.build_def None None (Some "not-a-version"))]
           "builds/a.json" (Ref.build_def None None (Some "not-a-version"))
           "not-a-version").
  - now left.
  - reflexivity.
  - reflexivity.
  - discriminate.
  - reflexivity.
Defined.

(** C4 as stated fails: on the nightly channel an invalid [min_version]
    is never examined.  A nightly-only build with such a [min_version]
    is classified on the nightly channel and skipped as disabled on the
    stable channel; neither classification throws. *)
Lemma C4_counterexample :
  semver_valid (Platform := Ref.platform) "not-a-version" = false /\
  disabled nightly (Ref.build_def None (Some nightly) (Some "not-a-version")) = false /\
  shouldBuild (P := Ref.platform) None Ref.files "2.1.2" nightly
    [("builds/n.json", Ref.build_def None (Some nightly) (Some "not-a-version"))]
  = Ok (false,
        [("builds/n.json",
          {| version := "2.1.2"; md5 := "contents of builds/n.json";
             build := Ref.build_def None (Some nightly) (Some "not-a-version");
             action := create; assetId := None |})]) /\
  shouldBuild (P := Ref.platform) None Ref.files "2.1.2" stable
    [("builds/n.json", Ref.build_def None (Some nightly) (Some "not-a-version"))]
  = Ok (true, []).
Proof.
  repeat split; reflexivity.
Qed.





(** C1 at a failing input: the tracker loads but holds no record for
    the disabled build [builds/d.json].  Reading [assetId] of the missing
    record throws inside [try]; the [catch] loop then skips the build, so
    that it has no decision at all, and gives the up-to-date build
    [builds/a.json] a [create]. *)
Lemma C1_disabled_build_without_record :
  tracked_pass (P := Ref.platform)
    (Some [("builds/a.json", Ref.record "2.1.2" "builds/a.json" (Some 7%N))])
    Ref.files "2.1.2" stable
    [("builds/a.json", Ref.enabled_build); ("builds/d.json", Ref.disabled_build)] []
  = ([("builds/a.json",
       {| version := "2.1.2"; md5 := "contents of builds/a.json";
          build := Ref.enabled_build; action := ignore; assetId := Some 7%N |})],
     Throw (TypeError "assetId")) /\
  exists newBuilds,
    shouldBuild (P := Ref.platform)
      (Some [("builds/a.json", Ref.record "2.1.2" "builds/a.json" (Some 7%N))])
      Ref.files "2.1.2" stable
      [("builds/a.json", Ref.enabled_build); ("builds/d.json", Ref.disabled_build)]
    = Ok (false, newBuilds) /\
    JS.get newBuilds "builds/d.json" = None /\
    JS.get newBuilds "builds/a.json"
    = Some {| version := "2.1.2"; md5 := "contents of builds/a.json";
              build := Ref.enabled_build; action := create; assetId := None |}.
Proof.
  split; [reflexivity|]. eexists. repeat split; reflexivity.
Qed.

(** C7 at a failing input: a catalog with one enabled and one disabled
    build, no tracker on the first run.  The first run creates the
    enabled build and [doBuild] writes the tracker, which has no record
    for the disabled build.  The second run, on the same catalog, files
    and latest version, reads that tracker; the missing record makes the
    [try] loop throw and the [catch] loop gives the enabled build
    [create] again rather than [ignore]. *)
Lemma C7_second_run_creates_again :
  exists newBuilds1 w tracker2 newBuilds2,
    shouldBuild (P := Ref.platform) None Ref.files "2.1.2" stable
      [("builds/a.json", Ref.enabled_build); ("builds/d.json", Ref.disabled_build)]
    = Ok (false, newBuilds1) /\
    doBuild (C := Ref.collaborators) Ref.env "2.1.2" stable newBuilds1 Ref.empty_world
    = (w, Ok tt) /\
    last_json w stable = Some tracker2 /\
    tracker2 = [("builds/a.json", Ref.record "2.1.2" "builds/a.json" (Some 42%N))] /\
    shouldBuild (P := Ref.platform) (Some tracker2) Ref.files "2.1.2" stable
      [("builds/a.json", Ref.enabled_build); ("builds/d.json", Ref.disabled_build)]
    = Ok (false, newBuilds2) /\
    JS.get newBuilds2 "builds/a.json"
    = Some {| version := "2.1.2"; md5 := "contents of builds/a.json";
              build := Ref.enabled_build; action := create; assetId := None |}.
Proof.
  do 4 eexists. repeat split; reflexivity.
Qed.

(* ===================================================================== *)
(** ** Properties of the publish step *)
(* ===================================================================== *)

Section Publishing.

Context {C : Collaborators}.
Variable env : RunEnv.
Variable latestVersion : string.
Variable kind : Kind.

(** The batch stays as it is over builds that are ignored or whose
    build step yields no artifact. *)
Lemma collect_assets_nothing entries assets :
  (forall name d, In (name, d) entries -> action d <> ignore ->
     exists p, processBuild name (build d) kind latestVersion = Ok p /\ truthy p = false) ->
  collect_assets env latestVersion kind entries assets = Ok assets.
Proof.
  induction entries as [|[name d] entries IH]; simpl; intros H; [reflexivity|].
  destruct (Action_eqb (action d) ignore) eqn:Ea.
  - apply IH. intros; eapply H; eauto.
  - destruct (H name d) as (p & Hp & Hfalsy); [now left| |].
    + intros Heq. rewrite Heq in Ea. discriminate.
    + rewrite Hp. destruct p as [path|].
      * unfold truthy in *. rewrite Hfalsy. simpl. apply IH. intros; eapply H; eauto.
      * apply IH. intros; eapply H; eauto.
Qed.

Lemma collect_assets_grows entries assets r :
  collect_assets env latestVersion kind entries assets = Ok r ->
  (length assets <= length r)%nat.
Proof.
  revert assets.
  induction entries as [|[name d] entries IH]; cbn [collect_assets]; intros assets H.
  - inversion H. lia.
  - destruct (Action_eqb (action d) ignore); [now apply IH|].
    destruct (processBuild name (build d) kind latestVersion) as [[path|]|e];
      [|now apply IH|discriminate].
    destruct (negb (truthy (Some path))); [now apply IH|].
    apply IH in H. rewrite length_app in H. simpl in H. lia.
Qed.

(** The batch is empty exactly when no build step threw and every
    build that is not ignored yielded no artifact. *)
Lemma collect_assets_empty_iff entries :
  collect_assets env latestVersion kind entries [] = Ok [] <->
  (forall name d, In (name, d) entries -> action d <> ignore ->
     exists p, processBuild name (build d) kind latestVersion = Ok p /\ truthy p = false).
Proof.
  split; [|apply collect_assets_nothing].
  induction entries as [|[name d] entries IH]; cbn [collect_assets In];
    intros H n0 d0 Hin Hact; [contradiction|].
  destruct (Action_eqb (action d) ignore) eqn:Ea.
  - destruct Hin as [Heq|Hin]; [|now apply IH].
    inversion Heq; subst. destruct (action d0); try discriminate. congruence.
  - destruct (processBuild name (build d) kind latestVersion) as [[path|]|e] eqn:Ep;
      [| |discriminate].
    + destruct (negb (truthy (Some path))) eqn:Et.
      * destruct Hin as [Heq|Hin]; [|now apply IH].
        inversion Heq; subst. exists (Some path). split; [assumption|].
        now apply negb_true_iff in Et.
      * apply collect_assets_grows in H. simpl in H. lia.
    + destruct Hin as [Heq|Hin]; [|now apply IH].
      inversion Heq; subst. exists None. now split.
Qed.

(** C9: when the asset batch is empty after the first loop, [doBuild]
    returns without creating a release, uploading an asset or writing
    the tracker file: the world is left as it was. *)
Theorem C9_empty_batch_changes_nothing buildDefs w :
  collect_assets env latestVersion kind (JS.entries buildDefs) [] = Ok [] ->
  doBuild env latestVersion kind buildDefs w = (w, Ok tt) /\
  forall w', fst (doBuild env latestVersion kind buildDefs w) = w' ->
    releases w' = releases w /\ uploads w' = uploads w /\
    forall k, last_json w' k = last_json w k.
Proof.
  intros Hempty.
  assert (Hrun : doBuild env latestVersion kind buildDefs w = (w, Ok tt)).
  { unfold doBuild. rewrite Hempty. simpl. now destruct (devMode env). }
  split; [assumption|]. rewrite Hrun. simpl. intros w' <-. auto.
Qed.

End Publishing.

(** C9 on a run whose only build yields no artifact. *)
Lemma C9_empty_batch_changes_nothing_witness :
  collect_assets (C := Ref.idle_collaborators) Ref.env "2.1.2" stable
    [("builds/a.json",
      decision (P := Ref.platform) "2.1.2" "contents of builds/a.json"
        Ref.enabled_build create None)] []
  = Ok [] /\
  doBuild (C := Ref.idle_collaborators) Ref.env "2.1.2" stable
    [("builds/a.json",
      decision (P := Ref.platform) "2.1.2" "contents of builds/a.json"
        Ref.enabled_build create None)]
    Ref.empty_world
  = (Ref.empty_world, Ok tt).
Proof.
  split; [reflexivity|].
  apply (@C9_empty_batch_changes_nothing Ref.idle_collaborators Ref.env "2.1.2" stable
           [("builds/a.json",
             decision (P := Ref.platform) "2.1.2" "contents of builds/a.json"
               Ref.enabled_build create None)]
           Ref.empty_world).
  reflexivity.
Defined.

(* ===================================================================== *)
(** ** The whole run *)
(* ===================================================================== *)

Section WholeRun.

Context {P : Platform} {C : Collaborators}.

(** An error thrown while classifying either channel ends the run
    before anything is downloaded, built or published. *)
Lemma main_classification_throws
    fileContents envStable envNightly latestStable latestNightly builds w e :
  builds <> [] ->
  shouldBuild (last_json w stable) fileContents latestStable stable builds = Throw e \/
  ((exists r, shouldBuild (last_json w stable) fileContents latestStable stable builds
              = Ok r) /\
   shouldBuild (last_json w nightly) fileContents latestNightly nightly builds = Throw e) ->
  main fileContents envStable envNightly latestStable latestNightly builds w
  = (w, Throw e).
Proof.
  intros Hne H. unfold main.
  destruct builds as [|x builds']; [congruence|]. cbn [JS.keys map length Nat.eqb].
  destruct H as [-> | [[[ig nb] ->] ->]]; reflexivity.
Qed.

(** When both channels are all [ignore], the run ends without
    publishing. *)
Lemma main_nothing_to_do
    fileContents envStable envNightly latestStable latestNightly builds w nbS nbN :
  shouldBuild (last_json w stable) fileContents latestStable stable builds
    = Ok (true, nbS) ->
  shouldBuild (last_json w nightly) fileContents latestNightly nightly builds
    = Ok (true, nbN) ->
  main fileContents envStable envNightly latestStable latestNightly builds w
  = (w, Ok tt).
Proof.
  intros HS HN. unfold main. rewrite HS, HN.
  now destruct (Nat.eqb (length (JS.keys builds)) 0).
Qed.

End WholeRun.

(** Two runs in a row on a catalog with one enabled and one disabled
    build, starting without tracker files: each run publishes the
    enabled build on both channels, so that after the second run it has
    been uploaded four times. *)
Example two_runs_publish_twice :
  exists w1 w2,
    main (P := Ref.platform) (C := Ref.collaborators) Ref.files Ref.env Ref.env
      "2.1.2" "bugfix-2.1.x"
      [("builds/a.json", Ref.enabled_build); ("builds/d.json", Ref.disabled_build)]
      Ref.empty_world
    = (w1, Ok tt) /\
    length (uploads w1) = 2%nat /\
    main (P := Ref.platform) (C := Ref.collaborators) Ref.files Ref.env Ref.env
      "2.1.2" "bugfix-2.1.x"
      [("builds/a.json", Ref.enabled_build); ("builds/d.json", Ref.disabled_build)]
      w1
    = (w2, Ok tt) /\
    length (uploads w2) = 4%nat.
Proof.
  do 2 eexists. repeat split; reflexivity.
Qed.

(** The same two runs without the disabled build: the second run has
    nothing to do. *)
Example two_runs_publish_once :
  exists w1,
    main (P := Ref.platform) (C := Ref.collaborators) Ref.files Ref.env Ref.env
      "2.1.2" "bugfix-2.1.x" [("builds/a.json", Ref.enabled_build)] Ref.empty_world
    = (w1, Ok tt) /\
    length (uploads w1) = 2%nat /\
    main (P := Ref.platform) (C := Ref.collaborators) Ref.files Ref.env Ref.env
      "2.1.2" "bugfix-2.1.x" [("builds/a.json", Ref.enabled_build)] w1
    = (w1, Ok tt).
Proof.
  eexists. repeat split; reflexivity.
Qed.

(* ===================================================================== *)
(** ** Strings: replacing placeholders *)
(* ===================================================================== *)

Module StringFacts.

Lemma append_assoc (a b c : string) : ((a ++ b) ++ c = a ++ (b ++ c))%string.
Proof. induction a as [|x a IH]; simpl; [reflexivity|now rewrite IH]. Qed.

Lemma append_empty_r (a : string) : (a ++ "")%string = a.
Proof. induction a as [|x a IH]; simpl; [reflexivity|now rewrite IH]. Qed.

Lemma strip_prefix_app (p rest : string) : JS.strip_prefix p (p ++ rest) = Some rest.
Proof.
  induction p as [|a p IH]; simpl; [reflexivity|]. now rewrite Ascii.eqb_refl.
Qed.

Lemma strip_prefix_sound (p s r : string) :
  JS.strip_prefix p s = Some r -> s = (p ++ r)%string.
Proof.
  revert s. induction p as [|a p IH]; simpl; intros s H.
  - now inversion H.
  - destruct s as [|b s]; [discriminate|].
    destruct (Ascii.eqb a b) eqn:E; [|discriminate].
    apply Ascii.eqb_eq in E. subst b. f_equal. now apply IH.
Qed.

Lemma free_of_app (c : ascii) (a b : string) :
  free_of c (a ++ b) = free_of c a && free_of c b.
Proof.
  induction a as [|x a IH]; simpl; [reflexivity|]. now rewrite IH, andb_assoc.
Qed.

(** A replacement text without dollar signs is inserted as it is. *)
Lemma getSubstitution_plain (matched before after repl : string) :
  free_of "$" repl = true -> JS.getSubstitution matched before after repl = repl.
Proof.
  induction repl as [|c r IH]; simpl; [reflexivity|].
  intros H. apply andb_prop in H. destruct H as [Hc Hr].
  apply negb_true_iff in Hc. rewrite Hc. now rewrite IH.
Qed.

(** No occurrence of a pattern that begins with an opening brace starts
    inside a text without opening braces. *)
Lemma split_first_skip (pat' x rest : string) :
  free_of "{" x = true ->
  JS.split_first (String "{" pat') (x ++ rest)
  = match JS.split_first (String "{" pat') rest with
    | Some (before, after) => Some ((x ++ before)%string, after)
    | None => None
    end.
Proof.
  induction x as [|c x IH]; cbn [free_of append]; intros H.
  - destruct (JS.split_first (String "{" pat') rest) as [[? ?]|]; reflexivity.
  - apply andb_prop in H. destruct H as [Hc Hx].
    apply negb_true_iff in Hc. rewrite Ascii.eqb_sym in Hc.
    cbn [JS.split_first JS.strip_prefix]. rewrite Hc.
    rewrite IH by assumption.
    destruct (JS.split_first (String "{" pat') rest) as [[? ?]|]; reflexivity.
Qed.

Lemma split_first_free (pat' s : string) :
  free_of "{" s = true -> JS.split_first (String "{" pat') s = None.
Proof.
  intros H. rewrite <- (append_empty_r s). rewrite split_first_skip by assumption.
  reflexivity.
Qed.

(** No occurrence of a placeholder starts inside another placeholder. *)
Lemma split_first_other (p q : placeholder) (rest : string) :
  p <> q ->
  JS.split_first (placeholder_text p) (placeholder_text q ++ rest)
  = match JS.split_first (placeholder_text p) rest with
    | Some (before, after) => Some ((placeholder_text q ++ before)%string, after)
    | None => None
    end.
Proof.
  intros Hne.
  destruct p, q; try congruence; cbn;
    destruct (JS.split_first _ rest) as [[? ?]|]; reflexivity.
Qed.

Lemma split_first_here (p : placeholder) (rest : string) :
  JS.split_first (placeholder_text p) (placeholder_text p ++ rest) = Some (EmptyString, rest).
Proof.
  destruct p; reflexivity.
Qed.

Lemma placeholder_text_brace (p : placeholder) :
  exists pat', placeholder_text p = String "{" pat'.
Proof. destruct p; eexists; reflexivity. Qed.

Lemma placeholder_eqb_eq (p q : placeholder) : placeholder_eqb p q = true <-> p = q.
Proof. destruct p, q; simpl; split; congruence. Qed.

Lemma with_value_same value p v : with_value value p v p = v.
Proof. unfold with_value. now destruct p. Qed.

Lemma with_value_other value p v q : q <> p -> with_value value p v q = value q.
Proof.
  unfold with_value. intros Hne.
  destruct (placeholder_eqb q p) eqn:E; [|reflexivity].
  apply placeholder_eqb_eq in E. contradiction.
Qed.

Lemma fill_ext (f g : placeholder -> string) (segs : list segment) :
  (forall p, In p (holes segs) -> f p = g p) -> fill f segs = fill g segs.
Proof.
  induction segs as [|[x|q] segs IH]; simpl; intros H; [reflexivity| |].
  - now rewrite IH.
  - rewrite (H q) by now left. rewrite IH; [reflexivity|]. intros; apply H. now right.
Qed.

(** One [replace] call on a segmented template fills the hole of its
    placeholder. *)
Lemma replace_fill (value : placeholder -> string) (p : placeholder) (v : string)
    (segs : list segment) :
  value p = placeholder_text p ->
  (forall q, q <> p -> value q = placeholder_text q \/ free_of "{" (value q) = true) ->
  literals_free_of "{" segs = true ->
  NoDup (holes segs) ->
  free_of "$" v = true ->
  JS.replace (fill value segs) (placeholder_text p) v = fill (with_value value p v) segs.
Proof.
  intros Hp Hothers Hlits Hnd Hv.
  assert (Hsplit :
    match JS.split_first (placeholder_text p) (fill value segs) with
    | Some (before, after) =>
        (before ++ v ++ after)%string = fill (with_value value p v) segs
    | None => fill value segs = fill (with_value value p v) segs
    end).
  { induction segs as [|[x|q] segs IH]; cbn [fill literals_free_of holes] in *.
    - destruct p; reflexivity.
    - apply andb_prop in Hlits. destruct Hlits as [Hx Hlits].
      destruct (placeholder_text_brace p) as [pat' Hpat]. rewrite Hpat in *.
      rewrite split_first_skip by assumption.
      specialize (IH Hlits Hnd).
      destruct (JS.split_first (String "{" pat') (fill value segs)) as [[b a]|].
      + now rewrite append_assoc, IH.
      + now rewrite IH.
    - inversion Hnd as [|? ? Hnotin Hnd']; subst.
      destruct (placeholder_eqb q p) eqn:E.
      + apply placeholder_eqb_eq in E. subst q.
        rewrite Hp, split_first_here, with_value_same. simpl.
        f_equal. apply fill_ext. intros q Hq. symmetry. apply with_value_other.
        intros ->. contradiction.
      + assert (Hne : q <> p) by (intros ->; destruct p; discriminate).
        rewrite (with_value_other value p v q Hne).
        specialize (IH Hlits Hnd').
        destruct (Hothers q Hne) as [Htext|Hfree].
        * rewrite Htext. rewrite split_first_other by congruence.
          destruct (JS.split_first (placeholder_text p) (fill value segs)) as [[b a]|].
          -- now rewrite append_assoc, IH.
          -- now rewrite IH.
        * destruct (placeholder_text_brace p) as [pat' Hpat]. rewrite Hpat in *.
          rewrite split_first_skip by assumption.
          destruct (JS.split_first (String "{" pat') (fill value segs)) as [[b a]|].
          -- now rewrite append_assoc, IH.
          -- now rewrite IH. }
  unfold JS.replace.
  destruct (JS.split_first (placeholder_text p) (fill value segs)) as [[b a]|];
    [|assumption].
  now rewrite getSubstitution_plain.
Qed.

(** *** Decimal digits *)

Lemma digit_char_free (c : ascii) (d : N) :
  c = "{"%char \/ c = "$"%char -> (d < 10)%N -> Ascii.eqb (JS.digit_char d) c = false.
Proof.
  intros Hc Hd.
  assert (H : (d = 0 \/ d = 1 \/ d = 2 \/ d = 3 \/ d = 4 \/ d = 5 \/ d = 6 \/ d = 7 \/
               d = 8 \/ d = 9)%N) by lia.
  destruct Hc as [-> | ->];
    repeat (destruct H as [-> | H]; [reflexivity|]); subst; reflexivity.
Qed.

Lemma digits_onto_free (c : ascii) (fuel : nat) (n : N) (acc : string) :
  c = "{"%char \/ c = "$"%char ->
  free_of c acc = true -> free_of c (JS.digits_onto fuel n acc) = true.
Proof.
  intros Hc. revert n acc. induction fuel as [|fuel IH]; simpl; intros n acc Hacc.
  - assumption.
  - assert (Hacc' : free_of c (String (JS.digit_char (n mod 10)) acc) = true).
    { cbn [free_of]. rewrite digit_char_free; auto.
      apply N.mod_lt. discriminate. }
    destruct (n / 10 =? 0)%N; auto.
Qed.

Lemma N_toString_free (c : ascii) (n : N) :
  c = "{"%char \/ c = "$"%char -> free_of c (JS.N_toString n) = true.
Proof. intros Hc. unfold JS.N_toString. now apply digits_onto_free. Qed.

Lemma Z_toString_free (c : ascii) (z : Z) :
  c = "{"%char \/ c = "$"%char -> free_of c (JS.Z_toString z) = true.
Proof.
  intros Hc. destruct z; unfold JS.Z_toString; try now apply N_toString_free.
  cbn [free_of]. rewrite N_toString_free by assumption.
  destruct Hc as [-> | ->]; reflexivity.
Qed.

(** The fuel [N_toString] starts with is enough: more fuel gives the
    same digits. *)
Lemma digits_onto_fuel_enough (fuel1 fuel2 : nat) (n : N) (acc : string) :
  (N.to_nat (N.log2 n) < fuel1)%nat -> (N.to_nat (N.log2 n) < fuel2)%nat ->
  JS.digits_onto fuel1 n acc = JS.digits_onto fuel2 n acc.
Proof.
  revert fuel2 n acc. induction fuel1 as [|fuel1 IH]; intros fuel2 n acc H1 H2; [lia|].
  destruct fuel2 as [|fuel2]; [lia|]. cbn [JS.digits_onto].
  destruct (n / 10 =? 0)%N eqn:E; [reflexivity|].
  apply N.eqb_neq in E.
  assert (Hlog : (N.log2 (n / 10) < N.log2 n)%N).
  { assert (Hpos : (0 < n / 10)%N) by now apply N.neq_0_lt_0.
    assert (Hn : (2 * (n / 10) <= n)%N).
    { pose proof (N.Div0.mul_div_le n 10). lia. }
    apply N.log2_le_mono in Hn. rewrite N.log2_double in Hn by assumption. lia. }
  apply IH; lia.
Qed.

(** A number of [k + 1] decimal digits is written with [k + 1]
    characters. *)
Lemma digits_onto_length (k fuel : nat) (n : N) (acc : string) :
  (k < fuel)%nat -> (10 ^ N.of_nat k <= n < 10 ^ N.of_nat (S k))%N ->
  String.length (JS.digits_onto fuel n acc) = (S k + String.length acc)%nat.
Proof.
  revert fuel n acc. induction k as [|k IH]; intros fuel n acc Hfuel Hn.
  - destruct fuel as [|fuel]; [lia|]. simpl.
    change (10 ^ N.of_nat 1)%N with 10%N in Hn. simpl in Hn.
    assert (Hq : (n / 10 = 0)%N) by (apply N.div_small; lia).
    rewrite Hq. reflexivity.
  - destruct fuel as [|fuel]; [lia|]. cbn [JS.digits_onto].
    rewrite !Nat2N.inj_succ, !N.pow_succ_r' in Hn.
    rewrite Nat2N.inj_succ in IH.
    assert (Hlow : (10 ^ N.of_nat k <= n / 10)%N).
    { apply N.div_le_lower_bound; lia. }
    assert (Hhigh : (n / 10 < 10 * 10 ^ N.of_nat k)%N).
    { apply N.Div0.div_lt_upper_bound; lia. }
    assert (Hpos : (0 < 10 ^ N.of_nat k)%N).
    { apply N.neq_0_lt_0. apply N.pow_nonzero. discriminate. }
    destruct (n / 10 =? 0)%N eqn:E.
    + apply N.eqb_eq in E. lia.
    + rewrite IH; [simpl; lia|lia|].
      rewrite N.pow_succ_r'. lia.
Qed.

(** The results of [randomInt(100000, 999999)] are written with six
    characters. *)
Lemma N_toString_six (n : N) :
  (100000 <= n < 999999)%N -> String.length (JS.N_toString n) = 6%nat.
Proof.
  intros Hn. unfold JS.N_toString.
  assert (Hlog : (16 <= N.log2 n)%N).
  { change 16%N with (N.log2 100000). apply N.log2_le_mono. lia. }
  rewrite (digits_onto_length 5); simpl; lia.
Qed.

(** *** [endsWith] *)

Lemma rev_string_acc (s acc : string) :
  JS.rev_string s acc = (JS.rev_string s "" ++ acc)%string.
Proof.
  revert acc. induction s as [|c s IH]; simpl; intros acc; [reflexivity|].
  rewrite IH. rewrite (IH (String c "")). now rewrite append_assoc.
Qed.

Lemma rev_string_app (a b : string) :
  JS.rev_string (a ++ b) "" = (JS.rev_string b "" ++ JS.rev_string a "")%string.
Proof.
  induction a as [|c a IH]; simpl.
  - now rewrite append_empty_r.
  - rewrite rev_string_acc, IH, (rev_string_acc a (String c "")).
    now rewrite append_assoc.
Qed.

Lemma endsWith_app (s t : string) : JS.endsWith (s ++ t) t = true.
Proof.
  unfold JS.endsWith. now rewrite rev_string_app, strip_prefix_app.
Qed.

Lemma endsWith_bin_twice (s : string) :
  JS.endsWith (s ++ ".bin") ".bin.bin" = JS.endsWith s ".bin".
Proof.
  unfold JS.endsWith. rewrite rev_string_app. reflexivity.
Qed.

End StringFacts.

(* ===================================================================== *)
(** ** Properties of the rendered filename *)
(* ===================================================================== *)

Section Rendering.

Variable env : RunEnv.
Variable latestVersion : string.
Variable id : N.

Hypothesis version_no_brace : free_of "{" latestVersion = true.
Hypothesis version_no_dollar : free_of "$" latestVersion = true.
Hypothesis date_no_brace : free_of "{" (currentDate env) = true.
Hypothesis date_no_dollar : free_of "$" (currentDate env) = true.

Lemma values_no_brace (p : placeholder) :
  free_of "{" (placeholder_value env latestVersion id p) = true.
Proof.
  destruct p; simpl; auto.
  - apply StringFacts.Z_toString_free. now left.
  - apply StringFacts.N_toString_free. now left.
Qed.

Lemma fill_free (c : ascii) (value : placeholder -> string) (segs : list segment) :
  literals_free_of c segs = true -> (forall p, free_of c (value p) = true) ->
  free_of c (fill value segs) = true.
Proof.
  intros Hlits Hvals. induction segs as [|[x|q] segs IH]; simpl in *; auto.
  - apply andb_prop in Hlits. destruct Hlits as [Hx Hlits].
    rewrite StringFacts.free_of_app, Hx. now apply IH.
  - rewrite StringFacts.free_of_app, Hvals. now apply IH.
Qed.

(** The four [replace] calls fill the four holes. *)
Lemma replace_all_four (segs : list segment) :
  NoDup (holes segs) -> literals_free_of "{" segs = true ->
  JS.replace
    (JS.replace
       (JS.replace
          (JS.replace (template_text segs) "{{marlin_version}}" latestVersion)
          "{{current_date}}" (currentDate env))
       "{{timestamp}}" (JS.Z_toString (timestamp env)))
    "{{uid}}" (JS.N_toString id)
  = fill (placeholder_value env latestVersion id) segs.
Proof.
  intros Hnd Hlits. unfold template_text.
  change "{{marlin_version}}" with (placeholder_text marlin_version).
  change "{{current_date}}" with (placeholder_text current_date).
  change "{{timestamp}}" with (placeholder_text p_timestamp).
  change "{{uid}}" with (placeholder_text uid).
  rewrite StringFacts.replace_fill; auto.
  rewrite StringFacts.replace_fill; auto.
  rewrite StringFacts.replace_fill; auto.
  rewrite StringFacts.replace_fill; auto.
  - apply StringFacts.fill_ext. intros p _. now destruct p.
  - intros q Hq. destruct q; try congruence; auto.
    right. apply StringFacts.Z_toString_free. now left.
  - apply StringFacts.N_toString_free. now right.
  - intros q Hq. destruct q; try congruence; auto.
  - apply StringFacts.Z_toString_free. now right.
  - intros q Hq. destruct q; try congruence; auto.
Qed.

(** C8 (amended): for every filename template made of literal text
    without opening braces and of the four placeholders, each occurring
    at most once, with a version string and a date free of opening
    braces and dollar signs, the rendered filename is the template with
    every placeholder replaced by its value (version, date, timestamp,
    six-digit random number), holds no placeholder any more and ends
    with [.bin]; when the substituted text does not end with [.bin], the
    extension is appended exactly once. *)
Theorem C8_rendered_filename (segs : list segment) :
  NoDup (holes segs) ->
  literals_free_of "{" segs = true ->
  (100000 <= id < 999999)%N ->
  let substituted := fill (placeholder_value env latestVersion id) segs in
  let rendered := render_filename env latestVersion id (template_text segs) in
  rendered = (if JS.endsWith substituted ".bin" then substituted
              else (substituted ++ ".bin")%string) /\
  (forall p, JS.includes rendered (placeholder_text p) = false) /\
  JS.endsWith rendered ".bin" = true /\
  (JS.endsWith substituted ".bin" = false ->
   rendered = (substituted ++ ".bin")%string /\
   JS.endsWith rendered ".bin.bin" = false) /\
  String.length (placeholder_value env latestVersion id uid) = 6%nat.
Proof.
  intros Hnd Hlits Hid substituted rendered.
  assert (Hr : rendered = (if JS.endsWith substituted ".bin" then substituted
                           else (substituted ++ ".bin")%string)).
  { unfold rendered, render_filename. rewrite replace_all_four by assumption.
    fold substituted. now destruct (JS.endsWith substituted ".bin"). }
  assert (Hfree : free_of "{" rendered = true).
  { rewrite Hr.
    assert (Hs : free_of "{" substituted = true)
      by (apply fill_free; [assumption|apply values_no_brace]).
    destruct (JS.endsWith substituted ".bin"); [assumption|].
    now rewrite StringFacts.free_of_app, Hs. }
  split; [assumption|]. split; [|split; [|split]].
  - intros p. unfold JS.includes.
    destruct (StringFacts.placeholder_text_brace p) as [pat' ->].
    now rewrite StringFacts.split_first_free.
  - rewrite Hr. destruct (JS.endsWith substituted ".bin") eqn:E; [assumption|].
    apply StringFacts.endsWith_app.
  - intros E. rewrite Hr, E. split; [reflexivity|].
    now rewrite StringFacts.endsWith_bin_twice.
  - simpl. now apply StringFacts.N_toString_six.
Qed.

End Rendering.

(** C8 (amended) on a template with the four placeholders. *)
Lemma C8_rendered_filename_witness :
  render_filename Ref.env "2.1.2" 123456
    "Marlin_{{marlin_version}}_{{current_date}}_{{timestamp}}_{{uid}}"
  = "Marlin_2.1.2_20240102_1704164640_123456.bin"
  /\
  let substituted :=
    fill (placeholder_value Ref.env "2.1.2" 123456)
      [Lit "Marlin_"; Hole marlin_version; Lit "_"; Hole current_date; Lit "_";
       Hole p_timestamp; Lit "_"; Hole uid] in
  let rendered :=
    render_filename Ref.env "2.1.2" 123456
      (template_text
         [Lit "Marlin_"; Hole marlin_version; Lit "_"; Hole current_date; Lit "_";
          Hole p_timestamp; Lit "_"; Hole uid]) in
  rendered = (if JS.endsWith substituted ".bin" then substituted
              else (substituted ++ ".bin")%string) /\
  (forall p, JS.includes rendered (placeholder_text p) = false) /\
  JS.endsWith rendered ".bin" = true /\
  (JS.endsWith substituted ".bin" = false ->
   rendered = (substituted ++ ".bin")%string /\
   JS.endsWith rendered ".bin.bin" = false) /\
  String.length (placeholder_value Ref.env "2.1.2" 123456 uid) = 6%nat.
Proof.
  split; [vm_compute; reflexivity|].
  apply (C8_rendered_filename Ref.env "2.1.2" 123456).
  - reflexivity.
  - reflexivity.
  - reflexivity.
  - reflexivity.
  - repeat constructor; simpl; intuition discriminate.
  - reflexivity.
  - lia.
Defined.

(** C8 as stated fails: a template that holds the four placeholders and
    no extension, with the disambiguator twice, keeps the second
    occurrence, as [replace] with a string pattern replaces the leftmost
    occurrence only. *)
Lemma C8_counterexample :
  (forall p,
     JS.includes "Marlin_{{marlin_version}}_{{current_date}}_{{timestamp}}_{{uid}}_{{uid}}"
       (placeholder_text p) = true) /\
  render_filename Ref.env "2.1.2" 123456
    "Marlin_{{marlin_version}}_{{current_date}}_{{timestamp}}_{{uid}}_{{uid}}"
  = "Marlin_2.1.2_20240102_1704164640_123456_{{uid}}.bin" /\
  JS.includes
    (render_filename Ref.env "2.1.2" 123456
       "Marlin_{{marlin_version}}_{{current_date}}_{{timestamp}}_{{uid}}_{{uid}}")
    "{{uid}}" = true.
Proof.
  split; [intros p; destruct p; vm_compute; reflexivity|].
  split; vm_compute; reflexivity.
Qed.

(* ===================================================================== *)
(** ** More on the two loops *)
(* ===================================================================== *)

Module LoopMore.


Lemma set_fresh {V : Type} (o : JS.obj V) (k : string) (v : V) :
  JS.get o k = None -> JS.set o k v = (o ++ [(k, v)])%list.
Proof.
  induction o as [|[k' v'] o IH]; simpl; [reflexivity|].
  destruct (String.eqb k' k) eqn:E; [discriminate|].
  intros H. now rewrite IH.
Qed.

Lemma get_map {V W : Type} (g : V -> W) (o : JS.obj V) (k : string) :
  JS.get (map (fun e => (fst e, g (snd e))) o) k = option_map g (JS.get o k).
Proof.
  induction o as [|[k' v'] o IH]; simpl; [reflexivity|].
  now destruct (String.eqb k' k).
Qed.

Lemma keys_map {V W : Type} (g : V -> W) (o : JS.obj V) :
  JS.keys (map (fun e => (fst e, g (snd e))) o) = JS.keys o.
Proof.
  unfold JS.keys. rewrite map_map. reflexivity.
Qed.


Section Assignments.

Variables classify classify' : string -> BuildSchema -> result (option BuildDef).

Lemma assignments_app l1 l2 s :
  assignments classify (l1 ++ l2) s = assignments classify l2 (assignments classify l1 s).
Proof. unfold assignments. apply fold_left_app. Qed.



(** New names are appended in the order of the entries. *)
Lemma keys_assignments_new l (s : BuildDefs) :
  JS.wf l ->
  JS.keys (assignments classify l s)
  = (JS.keys s
     ++ JS.keys (filter (fun e => decides classify e && negb (has_key s (fst e))) l))%list.
Proof.
  unfold assignments, JS.wf. revert s.
  induction l as [|[n b] l IH]; simpl; intros s Hnd.
  - now rewrite app_nil_r.
  - inversion Hnd as [|? ? Hnotin Hnd']; subst.
    assert (Hfilter : forall d,
      filter (fun e => decides classify e && negb (has_key (JS.set s n d) (fst e))) l
      = filter (fun e => decides classify e && negb (has_key s (fst e))) l).
    { intros d. apply filter_ext_in. intros [k v] Hin. simpl.
      assert (Hk : n <> k).
      { intros ->. apply Hnotin. change k with (fst (k, v)). now apply in_map. }
      unfold has_key. now rewrite ObjFacts.get_set_other. }
    assert (Hdec : decides classify (n, b)
                   = match classify n b with Ok (Some _) => true | _ => false end)
      by reflexivity.
    rewrite Hdec. clear Hdec.
    destruct (classify n b) as [[d|]|e] eqn:Ec; simpl.
    + rewrite IH by assumption. rewrite Hfilter, ObjFacts.keys_set.
      destruct (in_dec string_dec n (JS.keys s)) as [Hin|Hnin].
      * assert (Hhas : has_key s n = true).
        { unfold has_key. destruct (JS.get s n) eqn:Eg; [reflexivity|].
          apply ObjFacts.get_none_iff in Eg. contradiction. }
        now rewrite Hhas.
      * assert (Hhas : has_key s n = false).
        { unfold has_key. apply ObjFacts.get_none_iff in Hnin. now rewrite Hnin. }
        rewrite Hhas. simpl. now rewrite <- app_assoc.
    + now apply IH.
    + now apply IH.
Qed.

End Assignments.

Lemma subseq_refl {A : Type} (l : list A) : subseq l l.
Proof. induction l; [apply subseq_nil|now apply subseq_keep]. Qed.

Lemma subseq_nil_l {A : Type} (l : list A) : subseq [] l.
Proof. induction l; [apply subseq_nil|now apply subseq_skip]. Qed.

Lemma subseq_filter {A : Type} (f : A -> bool) (l : list A) : subseq (filter f l) l.
Proof.
  induction l as [|x l IH]; simpl; [apply subseq_nil|].
  destruct (f x); [now apply subseq_keep|now apply subseq_skip].
Qed.

Lemma subseq_map {A B : Type} (g : A -> B) (l' l : list A) :
  subseq l' l -> subseq (map g l') (map g l).
Proof.
  induction 1; simpl; [apply subseq_nil|now apply subseq_skip|now apply subseq_keep].
Qed.

Lemma subseq_app {A : Type} (a' a b' b : list A) :
  subseq a' a -> subseq b' b -> subseq (a' ++ b') (a ++ b).
Proof.
  induction 1; simpl; intros Hb; auto; [apply subseq_skip|apply subseq_keep]; auto.
Qed.

Lemma subseq_in {A : Type} (l' l : list A) (x : A) : subseq l' l -> In x l' -> In x l.
Proof. induction 1; simpl; intuition. Qed.

End LoopMore.

(* ===================================================================== *)
(** ** Further properties of [shouldBuild] *)
(* ===================================================================== *)

Section MoreClassification.

Context {P : Platform}.

Implicit Types (trackerFile : option (JS.obj Tracked))
  (fileContents : string -> option string) (latestVersion name : string)
  (kind : Kind) (loadedBuilds : JS.obj BuildSchema) (b : BuildSchema)
  (newBuilds : BuildDefs).

Lemma key_has_build loadedBuilds name :
  In name (JS.keys loadedBuilds) -> exists b, In (name, b) loadedBuilds.
Proof.
  unfold JS.keys. intros H. apply in_map_iff in H.
  destruct H as ([n b] & Heq & Hin). simpl in Heq. subst. eauto.
Qed.

Lemma gate_known
    trackerFile fileContents latestVersion kind loadedBuilds ig newBuilds name b :
  In (name, b) loadedBuilds -> disabled kind b = false ->
  shouldBuild trackerFile fileContents latestVersion kind loadedBuilds
    = Ok (ig, newBuilds) ->
  exists g, version_gate latestVersion kind name b = Ok g.
Proof.
  intros Hin Hd Hrun.
  pose proof (shouldBuild_ok _ _ _ _ _ _ _ Hrun) as [_ Hvia].
  destruct Hvia as [t _ _ Hall|acc _ _ Hall]; destruct (Hall _ _ Hin) as [od Hod].
  - eapply classifyT_ok_gate; eauto.
  - eapply classifyB_ok_gate; eauto.
Qed.

(** X1: every decision of the returned map belongs to a build of the
    catalog and records the latest version, the digest of the build's
    current file and the build definition itself, whatever the tracker
    held. *)
Theorem decisions_record_current_state
    trackerFile fileContents latestVersion kind loadedBuilds ig newBuilds name d :
  JS.wf loadedBuilds ->
  shouldBuild trackerFile fileContents latestVersion kind loadedBuilds
    = Ok (ig, newBuilds) ->
  JS.get newBuilds name = Some d ->
  exists b data,
    In (name, b) loadedBuilds /\ fileContents name = Some data /\
    version d = latestVersion /\ md5 d = md5_hex data /\ build d = b.
Proof.
  intros Hwf Hrun Hget.
  destruct (run_keys _ _ _ _ _ _ _ Hrun) as [_ Hsub].
  destruct (key_has_build loadedBuilds name) as [b Hin].
  { apply Hsub. eapply ObjFacts.get_some_in_keys; eauto. }
  exists b. destruct (disabled kind b) eqn:Hd.
  - destruct (run_disabled _ _ _ _ _ _ _ _ _ _ Hwf Hin Hd Hrun Hget)
      as (t & tb & data & _ & _ & Hdata & ->).
    exists data. auto.
  - destruct (gate_known _ _ _ _ _ _ _ _ _ Hin Hd Hrun) as [[|] Hg].
    + rewrite (run_gated _ _ _ _ _ _ _ _ _ Hwf Hin Hd Hg Hrun) in Hget. discriminate.
    + destruct (run_enabled _ _ _ _ _ _ _ _ _ Hwf Hin Hd Hg Hrun)
        as (data & Hdata & [Hget'|(t & _ & Hc)]); exists data.
      * rewrite Hget' in Hget. inversion Hget; subst d. auto.
      * destruct (classifyT_enabled _ _ _ _ _ _ _ Hd Hg Hc) as (data' & Hdata' & Heq).
        rewrite Hdata in Hdata'. inversion Hdata'; subst data'.
        rewrite Hget in Heq. inversion Heq as [Hd']. clear Heq.
        destruct (JS.get t name) as [tb|]; [|subst d; auto].
        destruct (negb (String.eqb (t_version tb) latestVersion)); [subst d; auto|].
        destruct (negb (String.eqb (md5_hex data) (t_md5 tb))); subst d; auto.
Qed.

(** X2: the flag [shouldBuild] returns is [true] exactly when every
    decision of the returned map is [ignore]; it is [true] for an empty
    map. *)
Theorem ignore_flag_iff_all_ignored
    trackerFile fileContents latestVersion kind loadedBuilds ig newBuilds :
  shouldBuild trackerFile fileContents latestVersion kind loadedBuilds
    = Ok (ig, newBuilds) ->
  (ig = true <-> forall name d, JS.get newBuilds name = Some d -> action d = ignore) /\
  (newBuilds = [] -> ig = true).
Proof.
  intros Hrun.
  pose proof (shouldBuild_ok _ _ _ _ _ _ _ Hrun) as [-> _].
  destruct (run_keys _ _ _ _ _ _ _ Hrun) as [Hwf _].
  split; [|now intros ->].
  unfold all_ignore. rewrite forallb_forall. split.
  - intros H name d Hget. apply ObjFacts.get_some_in in Hget.
    specialize (H d). unfold JS.values in H.
    assert (Hin : In d (map snd newBuilds)).
    { change d with (snd (name, d)). now apply in_map. }
    apply H in Hin. now destruct (action d).
  - intros H d Hin. unfold JS.values in Hin. apply in_map_iff in Hin.
    destruct Hin as ([n d'] & <- & Hin). simpl.
    rewrite (H n d'); [reflexivity|]. now apply ObjFacts.in_wf_get.
Qed.

(** X3: a build that is neither disabled nor skipped by the version
    gate and has no tracker record, the tracker file being loaded or
    not, is given [create] without asset id. *)
Theorem untracked_build_is_created
    trackerFile fileContents latestVersion kind loadedBuilds ig newBuilds name b :
  JS.wf loadedBuilds -> In (name, b) loadedBuilds ->
  disabled kind b = false ->
  version_gate latestVersion kind name b = Ok false ->
  (forall t, trackerFile = Some t -> JS.get t name = None) ->
  shouldBuild trackerFile fileContents latestVersion kind loadedBuilds
    = Ok (ig, newBuilds) ->
  exists data, fileContents name = Some data /\
    JS.get newBuilds name = Some (decision latestVersion data b create None).
Proof.
  intros Hwf Hin Hd Hg Hnone Hrun.
  destruct (run_enabled _ _ _ _ _ _ _ _ _ Hwf Hin Hd Hg Hrun)
    as (data & Hdata & [Hget|(t & Ht & Hc)]); exists data; split; auto.
  destruct (classifyT_enabled _ _ _ _ _ _ _ Hd Hg Hc) as (data' & Hdata' & Heq).
  rewrite Hdata in Hdata'. inversion Hdata'; subst data'.
  now rewrite Heq, (Hnone t Ht).
Qed.

(** X4: when the [try] loop runs to its end (every build file readable,
    a tracker record for every disabled build), a build that is neither
    disabled nor skipped by the version gate and is tracked at the
    latest version is given [update] if the digest of its file differs
    from the tracked one and [ignore] if it does not; both carry the
    tracked asset id. *)
Theorem tracked_at_latest_version
    t fileContents latestVersion kind loadedBuilds ig newBuilds name b tb data :
  JS.wf loadedBuilds -> In (name, b) loadedBuilds ->
  disabled kind b = false ->
  version_gate latestVersion kind name b = Ok false ->
  JS.get t name = Some tb -> t_version tb = latestVersion ->
  fileContents name = Some data ->
  (forall n b', In (n, b') loadedBuilds -> fileContents n <> None) ->
  (forall n b', In (n, b') loadedBuilds -> disabled kind b' = true ->
     JS.get t n <> None) ->
  shouldBuild (Some t) fileContents latestVersion kind loadedBuilds
    = Ok (ig, newBuilds) ->
  JS.get newBuilds name
  = Some (decision latestVersion data b
            (if String.eqb (md5_hex data) (t_md5 tb) then ignore else update)
            (t_assetId tb)).
Proof.
  intros Hwf Hin Hd Hg Htb Hv Hdata Hfiles Hrecs Hrun.
  destruct (run_tracked_complete _ _ _ _ _ _ _ Hfiles Hrecs Hrun) as [Heq Hall].
  destruct (Hall _ _ Hin) as [od Hod].
  destruct (classifyT_enabled _ _ _ _ _ _ _ Hd Hg Hod) as (data' & Hdata' & Hodeq).
  rewrite Hdata in Hdata'. inversion Hdata'; subst data'.
  rewrite Heq, get_assignments by assumption.
  rewrite (ObjFacts.in_wf_get _ _ _ Hwf Hin), Hod, Hodeq, Htb, Hv, String.eqb_refl.
  simpl. now destruct (String.eqb (md5_hex data) (t_md5 tb)).
Qed.


(** X6: when the tracker file cannot be loaded, the returned map lists
    exactly the builds that are neither disabled nor skipped by the
    version gate, in catalog order, each with [create] and no asset
    id. *)
Theorem first_run_creates_in_catalog_order
    fileContents latestVersion kind loadedBuilds ig newBuilds :
  JS.wf loadedBuilds ->
  shouldBuild None fileContents latestVersion kind loadedBuilds = Ok (ig, newBuilds) ->
  JS.keys newBuilds
  = JS.keys
      (filter (fun e => negb (disabled kind (snd e))
                        && match version_gate latestVersion kind (fst e) (snd e) with
                           | Ok false => true
                           | _ => false
                           end)
         loadedBuilds) /\
  forall name d, JS.get newBuilds name = Some d ->
    action d = create /\ assetId d = None.
Proof.
  intros Hwf Hrun. split.
  - pose proof (shouldBuild_ok _ _ _ _ _ _ _ Hrun) as [_ Hvia].
    destruct Hvia as [t [=] _ _|acc Hf -> Hall].
    inversion Hf; subst.
    rewrite LoopMore.keys_assignments_new by assumption. simpl. f_equal.
    apply filter_ext_in. intros [n b] Hin. simpl.
    destruct (Hall _ _ Hin) as [od Hod].
    unfold decides. simpl. rewrite Hod. rewrite andb_true_r.
    unfold classify_bootstrap in Hod.
    destruct (disabled kind b); simpl; [now inversion Hod|].
    destruct (version_gate latestVersion kind n b) as [[|]|e];
      [now inversion Hod| |discriminate].
    destruct (fileContents n); [now inversion Hod|discriminate].
  - intros name d Hget.
    pose proof (shouldBuild_ok _ _ _ _ _ _ _ Hrun) as [_ Hvia].
    destruct Hvia as [t [=] _ _|acc Hf -> Hall].
    inversion Hf; subst.
    rewrite get_assignments in Hget by assumption.
    destruct (JS.get loadedBuilds name) as [b|]; [|discriminate].
    unfold classify_bootstrap in Hget.
    destruct (disabled kind b); [discriminate|].
    destruct (version_gate latestVersion kind name b) as [[|]|e]; try discriminate.
    destruct (fileContents name); [|discriminate].
    inversion Hget; subst d. now split.
Qed.

Lemma classifiable_iff_bootstrap_ok fileContents latestVersion kind name b :
  classifiable fileContents latestVersion kind name b <->
  exists od, classify_bootstrap fileContents latestVersion kind name b = Ok od.
Proof.
  unfold classifiable, classify_bootstrap. split.
  - intros [Hd|(g & Hg & Hfile)].
    + rewrite Hd. eauto.
    + destruct (disabled kind b); [eauto|]. rewrite Hg.
      destruct g; [eauto|].
      destruct (fileContents name) eqn:Ef; [eauto|]. now destruct Hfile.
  - intros [od H]. destruct (disabled kind b); [now left|]. right.
    destruct (version_gate latestVersion kind name b) as [[|]|e]; try discriminate.
    + exists true. split; [reflexivity|discriminate].
    + exists false. split; [reflexivity|].
      intros _. destruct (fileContents name); discriminate.
Qed.

(** X7: whether [shouldBuild] returns or throws does not depend on the
    tracker file: it returns exactly when every build of the catalog is
    disabled, or has a [min_version] that passes the validity check and,
    unless the version gate skips it, a readable file. *)
Theorem returns_iff_catalog_classifiable
    trackerFile fileContents latestVersion kind loadedBuilds :
  (exists ig newBuilds,
     shouldBuild trackerFile fileContents latestVersion kind loadedBuilds
     = Ok (ig, newBuilds)) <->
  (forall name b, In (name, b) loadedBuilds ->
     classifiable fileContents latestVersion kind name b).
Proof.
  split.
  - intros (ig & newBuilds & Hrun) name b Hin.
    pose proof (shouldBuild_ok _ _ _ _ _ _ _ Hrun) as [_ Hvia].
    destruct Hvia as [t _ _ Hall|acc _ _ Hall].
    + destruct (Hall _ _ Hin) as [od Hod]. unfold classifiable.
      destruct (disabled kind b) eqn:Hd; [now left|right].
      destruct (classifyT_ok_gate _ _ _ _ _ _ _ Hd Hod) as [g Hg].
      exists g. split; [assumption|]. intros ->.
      destruct (classifyT_enabled _ _ _ _ _ _ _ Hd Hg Hod) as (data & Hdata & _).
      congruence.
    + apply classifiable_iff_bootstrap_ok. now apply Hall.
  - intros Hall.
    destruct (shouldBuild trackerFile fileContents latestVersion kind loadedBuilds)
      as [[ig newBuilds]|e] eqn:Hrun; [eauto|].
    exfalso. apply shouldBuild_throw in Hrun. destruct Hrun as (n & b & Hin & Hc).
    apply Hall, classifiable_iff_bootstrap_ok in Hin. destruct Hin as [od Hod].
    congruence.
Qed.

(** X8: the error [shouldBuild] throws is never the failure to load the
    tracker nor the read of a missing record: it is the error of the
    first build of the catalog, in catalog order, that is not disabled
    and has either a non-empty invalid [min_version] on the stable
    channel or, not being skipped by the version gate, an unreadable
    file. *)
Theorem thrown_error_is_first_offending_build
    trackerFile fileContents latestVersion kind loadedBuilds e :
  shouldBuild trackerFile fileContents latestVersion kind loadedBuilds = Throw e ->
  exists before name b after,
    loadedBuilds = (before ++ (name, b) :: after)%list /\
    (forall name' b', In (name', b') before ->
       classifiable fileContents latestVersion kind name' b') /\
    disabled kind b = false /\
    ((exists mv, kind = stable /\ min_version b = Some mv /\ mv <> EmptyString /\
                 semver_valid mv = false /\ e = InvalidMinVersion name mv) \/
     (version_gate latestVersion kind name b = Ok false /\
      fileContents name = None /\ e = ReadError name)).
Proof.
  intros Hrun.
  assert (Hboot : exists s s',
            bootstrap_pass fileContents latestVersion kind loadedBuilds s = (s', Throw e)).
  { unfold shouldBuild, tryCatch in Hrun.
    destruct (tracked_pass trackerFile fileContents latestVersion kind loadedBuilds [])
      as [s [[]|e0]]; [discriminate|].
    destruct (bootstrap_pass fileContents latestVersion kind loadedBuilds s)
      as [s' [[]|e']] eqn:Eb; [discriminate|].
    inversion Hrun; subst. eauto. }
  destruct Hboot as (s & s' & Hboot). unfold bootstrap_pass, JS.entries in Hboot.
  apply forOf_throw
    with (classify := classify_bootstrap fileContents latestVersion kind) in Hboot;
    [|intros; apply bootstrap_body_store].
  destruct Hboot as (l1 & n & b & l2 & Hl & Ht & _ & Hall).
  exists l1, n, b, l2. split; [assumption|]. split.
  { intros n' b' Hin. apply classifiable_iff_bootstrap_ok. eauto. }
  unfold classify_bootstrap in Ht.
  destruct (disabled kind b); [discriminate|]. split; [reflexivity|].
  destruct (version_gate latestVersion kind n b) as [[|]|e0] eqn:Hg; try discriminate.
  - right. destruct (fileContents n); [discriminate|]. inversion Ht. auto.
  - left. inversion Ht; subst e0.
    destruct (gate_throw _ _ _ _ _ Hg) as (mv & Hmv & -> & Hk & Hne & Hv).
    exists mv. auto.
Qed.

Lemma filter_nothing {A : Type} (f : A -> bool) (l : list A) :
  (forall x, In x l -> f x = false) -> filter f l = [].
Proof.
  induction l as [|x l IH]; simpl; intros H; [reflexivity|].
  rewrite (H x) by now left. apply IH. intros; apply H; now right.
Qed.

Lemma wf_app_l (l1 l2 : JS.obj BuildSchema) : JS.wf (l1 ++ l2) -> JS.wf l1.
Proof.
  unfold JS.wf, JS.keys. rewrite map_app. apply NoDup_app_remove_r.
Qed.

(** X9: the names of the returned map are names of the catalog in
    catalog order, also when the [catch] loop has run on top of the
    decisions of an interrupted [try] loop. *)
Theorem decisions_follow_catalog_order
    trackerFile fileContents latestVersion kind loadedBuilds ig newBuilds :
  JS.wf loadedBuilds ->
  shouldBuild trackerFile fileContents latestVersion kind loadedBuilds
    = Ok (ig, newBuilds) ->
  subseq (JS.keys newBuilds) (JS.keys loadedBuilds).
Proof.
  intros Hwf Hrun.
  pose proof (shouldBuild_ok _ _ _ _ _ _ _ Hrun) as [_ Hvia].
  assert (Hfresh : forall classify l,
            JS.wf l -> subseq (JS.keys (assignments classify l [])) (JS.keys l)).
  { intros classify l Hl. rewrite LoopMore.keys_assignments_new by assumption.
    simpl. unfold JS.keys. apply LoopMore.subseq_map, LoopMore.subseq_filter. }
  destruct Hvia as [t _ -> _|acc Hf -> Hall]; [now apply Hfresh|].
  destruct Hf as [|t l1 n0 b0 l2 e Hl Ht Hall1]; [now apply Hfresh|].
  rewrite LoopMore.keys_assignments_new by assumption.
  assert (Hwf1 : JS.wf l1) by (subst loadedBuilds; eapply wf_app_l; eauto).
  subst loadedBuilds. rewrite filter_app.
  rewrite (filter_nothing _ l1).
  - change ([] ++ ?x)%list with x.
    assert (Hkeys : JS.keys (l1 ++ (n0, b0) :: l2)
                    = (JS.keys l1 ++ JS.keys ((n0, b0) :: l2))%list)
      by (unfold JS.keys; apply map_app).
    rewrite Hkeys.
    apply LoopMore.subseq_app; [now apply Hfresh|].
    unfold JS.keys. apply LoopMore.subseq_map, LoopMore.subseq_filter.
  - intros [n b] Hin. simpl.
    destruct (decides (classify_bootstrap fileContents latestVersion kind) (n, b))
      eqn:Edec; [|reflexivity].
    simpl. apply negb_false_iff. unfold has_key.
    rewrite get_assignments by assumption.
    rewrite (ObjFacts.in_wf_get _ _ _ Hwf1 Hin).
    destruct (Hall1 _ _ Hin) as [od Hod]. rewrite Hod.
    unfold decides, classify_bootstrap in Edec. simpl in Edec.
    unfold classify_tracked in Hod.
    destruct (fileContents n) as [data|]; [|discriminate].
    destruct (disabled kind b); [discriminate|].
    destruct (version_gate latestVersion kind n b) as [[|]|e0]; try discriminate.
    destruct (JS.get t n) as [tb|]; [|now inversion Hod].
    destruct (negb (String.eqb (t_version tb) latestVersion)); [now inversion Hod|].
    destruct (negb (String.eqb (md5_hex data) (t_md5 tb))); now inversion Hod.
Qed.



End MoreClassification.

(** X1 on a run after a version bump. *)
Lemma decisions_record_current_state_witness :
  exists b data,
    In ("builds/a.json", b) [("builds/a.json", Ref.enabled_build)] /\
    Ref.files "builds/a.json" = Some data /\
    version (decision (P := Ref.platform) "2.1.2" "contents of builds/a.json"
               Ref.enabled_build create None) = "2.1.2" /\
    md5 (decision (P := Ref.platform) "2.1.2" "contents of builds/a.json"
           Ref.enabled_build create None) = md5_hex (Platform := Ref.platform) data /\
    build (decision (P := Ref.platform) "2.1.2" "contents of builds/a.json"
             Ref.enabled_build create None) = b.
Proof.
  apply (@decisions_record_current_state Ref.platform
           (Some [("builds/a.json", Ref.record "2.1.1" "builds/a.json" (Some 7%N))])
           Ref.files "2.1.2" stable [("builds/a.json", Ref.enabled_build)] false
           [("builds/a.json",
             decision (P := Ref.platform) "2.1.2" "contents of builds/a.json"
               Ref.enabled_build create None)]
           "builds/a.json").
  - wf_keys.
  - reflexivity.
  - reflexivity.
Defined.

(** X2 on the same run. *)
Lemma ignore_flag_iff_all_ignored_witness :
  (false = true <->
   forall name d,
     JS.get [("builds/a.json",
              decision (P := Ref.platform) "2.1.2" "contents of builds/a.json"
                Ref.enabled_build create None)] name = Some d ->
     action d = ignore) /\
  ([("builds/a.json",
     decision (P := Ref.platform) "2.1.2" "contents of builds/a.json"
       Ref.enabled_build create None)] = [] -> false = true).
Proof.
  apply (@ignore_flag_iff_all_ignored Ref.platform
           (Some [("builds/a.json", Ref.record "2.1.1" "builds/a.json" (Some 7%N))])
           Ref.files "2.1.2" stable [("builds/a.json", Ref.enabled_build)]).
  reflexivity.
Defined.

(** X3 on a first run. *)
Lemma untracked_build_is_created_witness :
  exists data, Ref.files "builds/a.json" = Some data /\
    JS.get [("builds/a.json",
             decision (P := Ref.platform) "2.1.2" "contents of builds/a.json"
               Ref.enabled_build create None)] "builds/a.json"
    = Some (decision (P := Ref.platform) "2.1.2" data Ref.enabled_build create None).
Proof.
  apply (@untracked_build_is_created Ref.platform None Ref.files "2.1.2" stable
           [("builds/a.json", Ref.enabled_build)] false
           [("builds/a.json",
             decision (P := Ref.platform) "2.1.2" "contents of builds/a.json"
               Ref.enabled_build create None)]
           "builds/a.json" Ref.enabled_build).
  - wf_keys.
  - now left.
  - reflexivity.
  - reflexivity.
  - discriminate.
  - reflexivity.
Defined.

(** X4 on a run where the tracked digest is [abc]. *)
Lemma tracked_at_latest_version_witness :
  JS.get [("builds/a.json",
           decision (P := Ref.platform) "2.1.2" "contents of builds/a.json"
             Ref.enabled_build update (Some 42%N))] "builds/a.json"
  = Some (decision (P := Ref.platform) "2.1.2" "contents of builds/a.json"
            Ref.enabled_build
            (if String.eqb "contents of builds/a.json" "abc" then ignore else update)
            (Some 42%N)).
Proof.
  apply (@tracked_at_latest_version Ref.platform
           [("builds/a.json",
             {| t_version := "2.1.2"; t_md5 := "abc"; t_assetId := Some 42%N |})]
           Ref.files "2.1.2" stable [("builds/a.json", Ref.enabled_build)] false
           [("builds/a.json",
             decision (P := Ref.platform) "2.1.2" "contents of builds/a.json"
               Ref.enabled_build update (Some 42%N))]
           "builds/a.json" Ref.enabled_build
           {| t_version := "2.1.2"; t_md5 := "abc"; t_assetId := Some 42%N |}
           "contents of builds/a.json").
  - wf_keys.
  - now left.
  - reflexivity.
  - reflexivity.
  - reflexivity.
  - reflexivity.
  - reflexivity.
  - intros n b' _. unfold Ref.files. discriminate.
  - intros n b' [[= <- <-]|[]]. discriminate.
  - reflexivity.
Defined.


(** X6 on a first run with an enabled, a disabled and a gated build. *)
Lemma first_run_creates_in_catalog_order_witness :
  JS.keys [("builds/a.json",
            decision (P := Ref.platform) "2.1.2.1" "contents of builds/a.json"
              Ref.enabled_build create None)]
  = ["builds/a.json"] /\
  forall name d,
    JS.get [("builds/a.json",
             decision (P := Ref.platform) "2.1.2.1" "contents of builds/a.json"
               Ref.enabled_build create None)] name = Some d ->
    action d = create /\ assetId d = None.
Proof.
  apply (@first_run_creates_in_catalog_order Ref.platform Ref.files "2.1.2.1" stable
           [("builds/a.json", Ref.enabled_build);
            ("builds/d.json", Ref.disabled_build);
            ("builds/g.json", Ref.build_def None None (Some "2.1.3"))]
           false).
  - wf_keys.
  - reflexivity.
Defined.

(** X8 on a stable run whose second build has an invalid
    [min_version]. *)
Lemma thrown_error_is_first_offending_build_witness :
  exists before name b after,
    [("builds/d.json", Ref.disabled_build);
     ("builds/a.json", Ref.build_def None None (Some "not-a-version"))]
    = (before ++ (name, b) :: after)%list /\
    (forall name' b', In (name', b') before ->
       classifiable (P := Ref.platform) Ref.files "2.1.2" stable name' b') /\
    disabled stable b = false /\
    ((exists mv, stable = stable /\ min_version b = Some mv /\ mv <> EmptyString /\
                 semver_valid (Platform := Ref.platform) mv = false /\
                 InvalidMinVersion "builds/a.json" "not-a-version"
                 = InvalidMinVersion name mv) \/
     (version_gate (P := Ref.platform) "2.1.2" stable name b = Ok false /\
      Ref.files name = None /\
      InvalidMinVersion "builds/a.json" "not-a-version" = ReadError name)).
Proof.
  apply (@thrown_error_is_first_offending_build Ref.platform (Some [])
           Ref.files "2.1.2" stable
           [("builds/d.json", Ref.disabled_build);
            ("builds/a.json", Ref.build_def None None (Some "not-a-version"))]
           (InvalidMinVersion "builds/a.json" "not-a-version")).
  reflexivity.
Defined.

(** X9 on a run whose [try] loop is interrupted by an untracked disabled
    build. *)
Lemma decisions_follow_catalog_order_witness :
  subseq ["builds/a.json"; "builds/c.json"]
         ["builds/a.json"; "builds/d.json"; "builds/c.json"].
Proof.
  apply (@decisions_follow_catalog_order Ref.platform
           (Some [("builds/a.json", Ref.record "2.1.2" "builds/a.json" (Some 7%N));
                  ("builds/c.json", Ref.record "2.1.2" "builds/c.json" (Some 9%N))])
           Ref.files "2.1.2" stable
           [("builds/a.json", Ref.disabled_build);
            ("builds/d.json", Ref.disabled_build);
            ("builds/c.json", Ref.enabled_build)]
           false
           [("builds/a.json",
             decision (P := Ref.platform) "2.1.2" "contents of builds/a.json"
               Ref.disabled_build ignore (Some 7%N));
            ("builds/c.json",
             decision (P := Ref.platform) "2.1.2" "contents of builds/c.json"
               Ref.enabled_build create None)]).
  - wf_keys.
  - reflexivity.
Defined.


(* ===================================================================== *)
(** ** Further properties of [doBuild] *)
(* ===================================================================== *)

Lemma render_filename_ends_with_bin env latestVersion id template :
  JS.endsWith (render_filename env latestVersion id template) ".bin" = true.
Proof.
  unfold render_filename. cbv zeta.
  set (f := JS.replace _ "{{uid}}" _).
  destruct (JS.endsWith f ".bin") eqn:E; simpl;
    [assumption|apply StringFacts.endsWith_app].
Qed.

Lemma subseq_NoDup {A : Type} (l' l : list A) : subseq l' l -> NoDup l -> NoDup l'.
Proof.
  induction 1; intros Hnd; auto.
  - inversion Hnd; auto.
  - inversion Hnd as [|? ? Hnotin Hnd']; subst. constructor; auto.
    intros Hin. apply Hnotin. eapply LoopMore.subseq_in; eauto.
Qed.

Section MorePublishing.

Context {C : Collaborators}.
Variable env : RunEnv.
Variable latestVersion : string.
Variable kind : Kind.

(** What the first loop adds to the batch. *)
Lemma collect_assets_spec entries assets r :
  collect_assets env latestVersion kind entries assets = Ok r ->
  exists added,
    r = (assets ++ added)%list /\
    subseq (map buildName added) (map fst entries) /\
    forall a, In a added ->
      exists d,
        In (buildName a, d) entries /\ action d <> ignore /\
        a_action a = action d /\ a_assetId a = assetId d /\
        processBuild (buildName a) (build d) kind latestVersion = Ok (Some (buildPath a)) /\
        buildPath a <> EmptyString /\
        JS.endsWith (filename a) ".bin" = true.
Proof.
  revert assets.
  induction entries as [|[name d] entries IH]; cbn [collect_assets]; intros assets H.
  - inversion H; subst. exists []. rewrite app_nil_r.
    repeat split; [apply subseq_nil|]. intros a [].
  - assert (Hskip : forall assets',
              collect_assets env latestVersion kind entries assets' = Ok r ->
              exists added,
                r = (assets' ++ added)%list /\
                subseq (map buildName added) (map fst ((name, d) :: entries)) /\
                forall a, In a added ->
                  exists d0,
                    In (buildName a, d0) ((name, d) :: entries) /\ action d0 <> ignore /\
                    a_action a = action d0 /\ a_assetId a = assetId d0 /\
                    processBuild (buildName a) (build d0) kind latestVersion
                    = Ok (Some (buildPath a)) /\
                    buildPath a <> EmptyString /\
                    JS.endsWith (filename a) ".bin" = true).
    { intros assets' H'. apply IH in H'. destruct H' as (added & -> & Hsub & Hall).
      exists added. repeat split; [now apply subseq_skip|].
      intros a Hin. destruct (Hall a Hin) as (d0 & Hd0 & Hrest).
      exists d0. split; [now right|assumption]. }
    destruct (Action_eqb (action d) ignore) eqn:Ea; [now apply Hskip|].
    destruct (processBuild name (build d) kind latestVersion) as [[path|]|e] eqn:Ep;
      [|now apply Hskip|discriminate].
    destruct (negb (truthy (Some path))) eqn:Et; [now apply Hskip|].
    apply IH in H. destruct H as (added & -> & Hsub & Hall).
    eexists (_ :: added). rewrite <- app_assoc. split; [reflexivity|]. split.
    + simpl. now apply subseq_keep.
    + intros a [<-|Hin].
      * exists d. simpl. repeat split; auto.
        -- intros Heq. rewrite Heq in Ea. discriminate.
        -- intros ->. discriminate.
        -- apply render_filename_ends_with_bin.
      * destruct (Hall a Hin) as (d0 & Hd0 & Hrest).
        exists d0. split; [now right|assumption].
Qed.

Lemma set_assetId_ok buildDefs name id buildDefs' :
  set_assetId buildDefs name id = Ok buildDefs' ->
  exists d, JS.get buildDefs name = Some d /\
    buildDefs' = JS.set buildDefs name
                   {| version := version d; md5 := md5 d; build := build d;
                      action := action d; assetId := Some id |}.
Proof.
  unfold set_assetId. destruct (JS.get buildDefs name) as [d|]; [|discriminate].
  intros [= <-]. eauto.
Qed.

(** The upload loop leaves tracker files and releases alone and
    records the uploads it made. *)
Lemma upload_assets_frame uploadUrl assets buildDefs w w' r :
  upload_assets uploadUrl assets buildDefs w = (w', r) ->
  last_json w' = last_json w /\ releases w' = releases w /\
  exists done rest,
    assets = (done ++ rest)%list /\
    uploads w' = (uploads w ++ map (pair uploadUrl) done)%list /\
    (forall buildDefs', r = Ok buildDefs' -> rest = []).
Proof.
  revert buildDefs w. induction assets as [|a assets IH]; simpl; intros buildDefs w H.
  - inversion H; subst. repeat split. exists [], []. simpl.
    rewrite app_nil_r. auto.
  - destruct (uploadAsset uploadUrl a) as [id|e].
    + destruct (set_assetId buildDefs (buildName a) id) as [buildDefs1|e].
      * apply IH in H. simpl in H.
        destruct H as (Hj & Hr & done & rest & -> & Hu & Hrest).
        repeat split; auto. exists (a :: done), rest. repeat split; auto.
        rewrite Hu, <- app_assoc. reflexivity.
      * inversion H; subst. simpl. repeat split.
        exists [a], assets. repeat split. discriminate.
    + inversion H; subst. repeat split.
      exists [], (a :: assets). simpl. rewrite app_nil_r. repeat split. discriminate.
Qed.

(** After a complete upload loop the map has the same names, and its
    entries differ from the former ones by the asset ids of the uploaded
    builds only. *)
Lemma upload_assets_ok uploadUrl assets buildDefs w w' buildDefs' :
  upload_assets uploadUrl assets buildDefs w = (w', Ok buildDefs') ->
  JS.keys buildDefs' = JS.keys buildDefs /\
  (forall name d, JS.get buildDefs name = Some d ->
     exists d', JS.get buildDefs' name = Some d' /\
       version d' = version d /\ md5 d' = md5 d /\ build d' = build d /\
       action d' = action d /\
       (~ In name (map buildName assets) -> assetId d' = assetId d)) /\
  (NoDup (map buildName assets) ->
   forall a, In a assets ->
     exists id d', uploadAsset uploadUrl a = Ok id /\
       JS.get buildDefs' (buildName a) = Some d' /\ assetId d' = Some id).
Proof.
  revert buildDefs w. induction assets as [|a assets IH]; simpl; intros buildDefs w H.
  - inversion H; subst. split; [reflexivity|]. split.
    + intros name d Hget. exists d. repeat split; auto.
    + intros _ a [].
  - destruct (uploadAsset uploadUrl a) as [id|e] eqn:Eu; [|discriminate].
    destruct (set_assetId buildDefs (buildName a) id) as [buildDefs1|e] eqn:Es;
      [|discriminate].
    apply set_assetId_ok in Es. destruct Es as (d0 & Hd0 & ->).
    apply IH in H. destruct H as (Hkeys & Hkeep & Hids).
    split; [|split].
    + rewrite Hkeys, ObjFacts.keys_set.
      destruct (in_dec string_dec (buildName a) (JS.keys buildDefs)) as [|Hn];
        [reflexivity|].
      exfalso. apply Hn. eapply ObjFacts.get_some_in_keys; eauto.
    + intros name d Hget.
      destruct (string_dec (buildName a) name) as [Heq|Hne].
      * subst name. rewrite Hd0 in Hget. inversion Hget; subst d0.
        destruct (Hkeep (buildName a) _ (ObjFacts.get_set_same _ _ _))
          as (d' & Hd' & Hv & Hm & Hb & Ha & _).
        exists d'. simpl in *. repeat split; auto; tauto.
      * destruct (Hkeep name d) as (d' & Hd' & Hv & Hm & Hb & Ha & Hid).
        { now rewrite ObjFacts.get_set_other. }
        exists d'. repeat split; auto; tauto.
    + intros Hnd a' [<-|Hin].
      * inversion Hnd as [|? ? Hnotin Hnd']; subst.
        destruct (Hkeep (buildName a) _ (ObjFacts.get_set_same _ _ _))
          as (d' & Hd' & _ & _ & _ & _ & Hid).
        exists id, d'. simpl in Hid. rewrite <- (Hid Hnotin). auto.
      * inversion Hnd; subst. now apply Hids.
Qed.

(** What a [doBuild] that uploaded its batch has done. *)
Lemma doBuild_success buildDefs w w' assets :
  JS.wf buildDefs ->
  devMode env = false ->
  collect_assets env latestVersion kind (JS.entries buildDefs) [] = Ok assets ->
  assets <> [] ->
  doBuild env latestVersion kind buildDefs w = (w', Ok tt) ->
  exists uploadUrl t,
    createRelease latestVersion kind (currentDateTime env) = Ok uploadUrl /\
    releases w' = (releases w ++ [(latestVersion, kind, currentDateTime env)])%list /\
    uploads w' = (uploads w ++ map (pair uploadUrl) assets)%list /\
    last_json w' kind = Some t /\
    (forall k, k <> kind -> last_json w' k = last_json w k) /\
    JS.keys t = JS.keys buildDefs /\
    (forall name d, JS.get buildDefs name = Some d ->
       exists r, JS.get t name = Some r /\
         t_version r = version d /\ t_md5 r = md5 d /\
         (~ In name (map buildName assets) -> t_assetId r = assetId d)) /\
    (forall a, In a assets ->
       exists id r, uploadAsset uploadUrl a = Ok id /\
         JS.get t (buildName a) = Some r /\ t_assetId r = Some id).
Proof.
  intros Hwf Hdev Hcollect Hne Hrun.
  unfold doBuild in Hrun. rewrite Hcollect, Hdev in Hrun.
  destruct assets as [|a0 assets0]; [congruence|]. cbn [length Nat.eqb] in Hrun.
  set (assets := a0 :: assets0) in *.
  destruct (createRelease latestVersion kind (currentDateTime env)) as [url|e];
    [|discriminate].
  destruct (upload_assets url assets buildDefs _) as [w2 [buildDefs'|e]] eqn:Eu;
    [|discriminate].
  inversion Hrun; subst w'. clear Hrun.
  destruct (upload_assets_frame _ _ _ _ _ _ Eu) as (Hj & Hr & done & rest & Hsplit & Hu & Hrest).
  rewrite (Hrest _ eq_refl), app_nil_r in Hsplit. subst done.
  destruct (upload_assets_ok _ _ _ _ _ _ Eu) as (Hkeys & Hkeep & Hids).
  assert (Hnd : NoDup (map buildName assets)).
  { destruct (collect_assets_spec _ _ _ Hcollect) as (added & Hadded & Hsub & _).
    simpl in Hadded. subst added.
    eapply subseq_NoDup; [exact Hsub|]. exact Hwf. }
  exists url, (to_tracker buildDefs'). simpl in *.
  assert (Hk : Kind_eqb kind kind = true) by now destruct kind.
  repeat split; auto.
  - now rewrite Hk.
  - intros k Hne'. destruct (Kind_eqb k kind) eqn:Ek.
    + destruct k, kind; simpl in Ek; congruence.
    + now rewrite Hj.
  - unfold to_tracker. now rewrite LoopMore.keys_map.
  - intros name d Hget.
    destruct (Hkeep name d Hget) as (d' & Hd' & Hv & Hm & _ & _ & Hid).
    exists (to_tracked d'). unfold to_tracker. rewrite LoopMore.get_map, Hd'.
    repeat split; auto.
  - intros a Hin. destruct (Hids Hnd a Hin) as (id & d' & Hup & Hd' & Hid).
    exists id, (to_tracked d'). unfold to_tracker. rewrite LoopMore.get_map, Hd'.
    repeat split; auto.
Qed.

(** A [doBuild] in dry-run mode changes nothing. *)
Lemma doBuild_dev buildDefs w :
  devMode env = true -> fst (doBuild env latestVersion kind buildDefs w) = w.
Proof.
  intros Hdev. unfold doBuild.
  destruct (collect_assets env latestVersion kind (JS.entries buildDefs) []);
    [now rewrite Hdev|reflexivity].
Qed.




(** X13: a [doBuild] that is not a dry run, has a non-empty batch and
    ends normally has created one release, uploaded the assets of the
    batch in order, and written a tracker with the names of the map in
    the same order; each record holds the version and digest of its
    decision, the asset id its upload returned if the build was
    uploaded and the asset id of its decision otherwise. *)
Theorem publish_writes_the_decisions buildDefs w w' assets :
  JS.wf buildDefs ->
  devMode env = false ->
  collect_assets env latestVersion kind (JS.entries buildDefs) [] = Ok assets ->
  assets <> [] ->
  doBuild env latestVersion kind buildDefs w = (w', Ok tt) ->
  exists uploadUrl t,
    createRelease latestVersion kind (currentDateTime env) = Ok uploadUrl /\
    releases w' = (releases w ++ [(latestVersion, kind, currentDateTime env)])%list /\
    uploads w' = (uploads w ++ map (pair uploadUrl) assets)%list /\
    last_json w' kind = Some t /\
    (forall k, k <> kind -> last_json w' k = last_json w k) /\
    JS.keys t = JS.keys buildDefs /\
    (forall name d, JS.get buildDefs name = Some d ->
       exists r, JS.get t name = Some r /\
         t_version r = version d /\ t_md5 r = md5 d /\
         (~ In name (map buildName assets) -> t_assetId r = assetId d)) /\
    (forall a, In a assets ->
       exists id r, uploadAsset uploadUrl a = Ok id /\
         JS.get t (buildName a) = Some r /\ t_assetId r = Some id).
Proof. apply doBuild_success. Qed.

End MorePublishing.

(** X14: classifying again after a publish that wrote the tracker, on
    the same catalog, files and latest version, gives [ignore] to every
    build and returns the flag [true], provided every build file is
    readable and every disabled build of the catalog had a decision. *)
Theorem classify_after_publish_ignores_all {P : Platform} {C : Collaborators}
    trackerFile fileContents env latestVersion kind loadedBuilds ig newBuilds
    assets w w' :
  JS.wf loadedBuilds ->
  shouldBuild trackerFile fileContents latestVersion kind loadedBuilds
    = Ok (ig, newBuilds) ->
  devMode env = false ->
  collect_assets env latestVersion kind (JS.entries newBuilds) [] = Ok assets ->
  assets <> [] ->
  doBuild env latestVersion kind newBuilds w = (w', Ok tt) ->
  (forall name b, In (name, b) loadedBuilds -> fileContents name <> None) ->
  (forall name b, In (name, b) loadedBuilds -> disabled kind b = true ->
     JS.get newBuilds name <> None) ->
  exists newBuilds2,
    shouldBuild (last_json w' kind) fileContents latestVersion kind loadedBuilds
    = Ok (true, newBuilds2) /\
    forall name d, JS.get newBuilds2 name = Some d -> action d = ignore.
Proof.
  intros Hwf Hrun Hdev Hcollect Hne Hpub Hfiles Hdis.
  destruct (run_keys _ _ _ _ _ _ _ Hrun) as [Hwfnb _].
  destruct (doBuild_success env latestVersion kind newBuilds w w' assets
              Hwfnb Hdev Hcollect Hne Hpub)
    as (url & t & _ & _ & _ & Ht & _ & _ & Hrecs & _).
  rewrite Ht.
  apply (second_run_ignores_all trackerFile t fileContents latestVersion kind
           loadedBuilds ig newBuilds Hwf Hrun); auto.
  - intros name d Hget. destruct (Hrecs name d Hget) as (r & Hr & Hv & Hm & _). eauto.
  - intros name b Hin Hd Hnone.
    destruct (JS.get newBuilds name) as [d|] eqn:Eg; [|now apply (Hdis name b)].
    destruct (Hrecs name d Eg) as (r & Hr & _). congruence.
Qed.



(** X13 on a publish of a [create] beside an [ignore]. *)
Lemma publish_writes_the_decisions_witness :
  exists uploadUrl t,
    createRelease (Collaborators := Ref.collaborators) "2.1.2" stable
      (currentDateTime Ref.env) = Ok uploadUrl /\
    releases
      (fst (doBuild (C := Ref.collaborators) Ref.env "2.1.2" stable
              [("builds/a.json",
                decision (P := Ref.platform) "2.1.2" "contents of builds/a.json"
                  Ref.enabled_build create None);
               ("builds/b.json",
                decision (P := Ref.platform) "2.1.2" "contents of builds/b.json"
                  Ref.enabled_build ignore (Some 3%N))]
              Ref.empty_world))
    = (releases Ref.empty_world ++ [("2.1.2", stable, currentDateTime Ref.env)])%list /\
    uploads
      (fst (doBuild (C := Ref.collaborators) Ref.env "2.1.2" stable
              [("builds/a.json",
                decision (P := Ref.platform) "2.1.2" "contents of builds/a.json"
                  Ref.enabled_build create None);
               ("builds/b.json",
                decision (P := Ref.platform) "2.1.2" "contents of builds/b.json"
                  Ref.enabled_build ignore (Some 3%N))]
              Ref.empty_world))
    = (uploads Ref.empty_world
       ++ map (pair uploadUrl)
            [{| buildName := "builds/a.json";
                filename := "Marlin_2.1.2_20240102_1704164640_123456.bin";
                buildPath := "dist/builds/a.json";
                a_action := create; a_assetId := None |}])%list /\
    last_json
      (fst (doBuild (C := Ref.collaborators) Ref.env "2.1.2" stable
              [("builds/a.json",
                decision (P := Ref.platform) "2.1.2" "contents of builds/a.json"
                  Ref.enabled_build create None);
               ("builds/b.json",
                decision (P := Ref.platform) "2.1.2" "contents of builds/b.json"
                  Ref.enabled_build ignore (Some 3%N))]
              Ref.empty_world)) stable
    = Some t /\
    JS.get t "builds/b.json" = Some (Ref.record "2.1.2" "builds/b.json" (Some 3%N)) /\
    JS.get t "builds/a.json" = Some (Ref.record "2.1.2" "builds/a.json" (Some 42%N)).
Proof.
  destruct (@publish_writes_the_decisions Ref.collaborators Ref.env "2.1.2" stable
              [("builds/a.json",
                decision (P := Ref.platform) "2.1.2" "contents of builds/a.json"
                  Ref.enabled_build create None);
               ("builds/b.json",
                decision (P := Ref.platform) "2.1.2" "contents of builds/b.json"
                  Ref.enabled_build ignore (Some 3%N))]
              Ref.empty_world
              (fst (doBuild (C := Ref.collaborators) Ref.env "2.1.2" stable
                      [("builds/a.json",
                        decision (P := Ref.platform) "2.1.2" "contents of builds/a.json"
                          Ref.enabled_build create None);
                       ("builds/b.json",
                        decision (P := Ref.platform) "2.1.2" "contents of builds/b.json"
                          Ref.enabled_build ignore (Some 3%N))]
                      Ref.empty_world))
              [{| buildName := "builds/a.json";
                  filename := "Marlin_2.1.2_20240102_1704164640_123456.bin";
                  buildPath := "dist/builds/a.json";
                  a_action := create; a_assetId := None |}])
    as (url & t & Hurl & Hrel & Hup & Ht & _).
  - wf_keys.
  - reflexivity.
  - reflexivity.
  - discriminate.
  - reflexivity.
  - exists url, t. repeat split; auto.
    + simpl in Ht. inversion Ht. reflexivity.
    + simpl in Ht. inversion Ht. reflexivity.
Defined.

(** X14 on a first run followed by its publish. *)
Lemma classify_after_publish_ignores_all_witness :
  exists newBuilds2,
    shouldBuild (P := Ref.platform)
      (last_json
         (fst (doBuild (C := Ref.collaborators) Ref.env "2.1.2" stable
                 [("builds/a.json",
                   decision (P := Ref.platform) "2.1.2" "contents of builds/a.json"
                     Ref.enabled_build create None)]
                 Ref.empty_world)) stable)
      Ref.files "2.1.2" stable [("builds/a.json", Ref.enabled_build)]
    = Ok (true, newBuilds2) /\
    forall name d, JS.get newBuilds2 name = Some d -> action d = ignore.
Proof.
  apply (@classify_after_publish_ignores_all Ref.platform Ref.collaborators
           None Ref.files Ref.env "2.1.2" stable
           [("builds/a.json", Ref.enabled_build)] false
           [("builds/a.json",
             decision (P := Ref.platform) "2.1.2" "contents of builds/a.json"
               Ref.enabled_build create None)]
           [{| buildName := "builds/a.json";
               filename := "Marlin_2.1.2_20240102_1704164640_123456.bin";
               buildPath := "dist/builds/a.json";
               a_action := create; a_assetId := None |}]
           Ref.empty_world).
  - wf_keys.
  - reflexivity.
  - reflexivity.
  - reflexivity.
  - discriminate.
  - reflexivity.
  - intros name b _. unfold Ref.files. discriminate.
  - intros name b [[= <- <-]|[]]. discriminate.
Defined.

(* ===================================================================== *)
(** ** The whole run *)
(* ===================================================================== *)

Section RunnerFacts.

Context {P : Platform} {C : Collaborators} {E : Surroundings}.

Lemma site_after_world_of s k : working (site_after s (world_of s)) k = working s k.
Proof.
  simpl. now destruct (working s k) as [[raw|t]|].
Qed.


Lemma publish_channel_dev skip env latest kind buildDefs w :
  devMode env = true ->
  fst (publish_channel skip env latest kind buildDefs w) = w.
Proof.
  intros Hdev. unfold publish_channel.
  destruct skip; [reflexivity|].
  destruct (download kind latest); [|reflexivity].
  now apply doBuild_dev.
Qed.

(** X15: a dry run ([--dev]) changes no tracker file, neither in the
    working directory nor in the main repository, creates no release
    and uploads nothing, whatever its outcome. *)
Theorem dry_run_changes_nothing fileContents envStable envNightly s :
  upstream (fst (runner true fileContents envStable envNightly s)) = upstream s /\
  (forall k, working (fst (runner true fileContents envStable envNightly s)) k
             = working s k) /\
  site_releases (fst (runner true fileContents envStable envNightly s))
    = site_releases s /\
  site_uploads (fst (runner true fileContents envStable envNightly s))
    = site_uploads s.
Proof.
  assert (Hsame : forall w, w = world_of s ->
            upstream (site_after s w) = upstream s /\
            (forall k, working (site_after s w) k = working s k) /\
            site_releases (site_after s w) = site_releases s /\
            site_uploads (site_after s w) = site_uploads s).
  { intros w ->. repeat split; auto. intros k. apply site_after_world_of. }
  unfold runner.
  destruct getLatestStable as [ls|]; [|now auto].
  destruct getLatestNightly as [ln|]; [|now auto].
  destruct dirSetup; [|now auto].
  destruct registerQuote; [|now auto].
  destruct loadBuilds as [builds|]; [|now auto].
  destruct (Nat.eqb (length (JS.keys builds)) 0); [now auto|].
  destruct (shouldBuild _ fileContents ls stable builds) as [[igS nbS]|]; [|now auto].
  destruct (shouldBuild _ fileContents ln nightly builds) as [[igN nbN]|]; [|now auto].
  destruct (igS && igN); [now auto|].
  pose proof (publish_channel_dev igS (set_devMode true envStable) ls stable nbS
                (world_of s) eq_refl) as H1.
  destruct (publish_channel igS _ ls stable nbS (world_of s)) as [w1 [u1|e1]];
    simpl in H1; subst w1; [|now apply Hsame].
  pose proof (publish_channel_dev igN (set_devMode true envNightly) ln nightly nbN
                (world_of s) eq_refl) as H2.
  destruct (publish_channel igN _ ln nightly nbN (world_of s)) as [w2 [u2|e2]];
    simpl in H2; subst w2; now apply Hsame.
Qed.



(** On the stable channel a build that is not disabled and has a
    non-empty invalid [min_version] makes [shouldBuild] throw. *)
Lemma stable_throws_on_invalid_min_version
    trackerFile fileContents latestVersion loadedBuilds name b mv :
  In (name, b) loadedBuilds -> disabled stable b = false ->
  min_version b = Some mv -> mv <> EmptyString -> semver_valid mv = false ->
  exists e,
    shouldBuild trackerFile fileContents latestVersion stable loadedBuilds = Throw e.
Proof.
  intros Hin Hd Hmv Hne Hvalid.
  pose proof (gate_rejects latestVersion name b mv Hmv Hne Hvalid) as Hg.
  destruct (shouldBuild trackerFile fileContents latestVersion stable loadedBuilds)
    as [[ig newBuilds]|e] eqn:Hrun; [|eauto].
  exfalso. apply shouldBuild_ok in Hrun.
  destruct Hrun as [_ [t _ _ Hall|acc _ _ Hall]]; destruct (Hall _ _ Hin) as [od Hod].
  - destruct (classifyT_ok_gate _ _ _ _ _ _ _ Hd Hod) as [g Hg']. congruence.
  - destruct (classifyB_ok_gate _ _ _ _ _ _ Hd Hod) as [g Hg']. congruence.
Qed.

(** X17: one build of the catalog that is enabled on the stable channel
    and has a non-empty invalid [min_version] makes the whole run fail
    before anything is published: no release is created and nothing is
    uploaded on the nightly channel either, where no [min_version] is
    examined, and the tracker files of the main repository stay as they
    were. *)
Theorem invalid_min_version_stops_both_channels
    dev fileContents envStable envNightly s builds name b mv :
  loadBuilds = Ok builds ->
  In (name, b) builds -> disabled stable b = false ->
  min_version b = Some mv -> mv <> EmptyString -> semver_valid mv = false ->
  exists e,
    snd (runner dev fileContents envStable envNightly s) = Throw e /\
    site_releases (fst (runner dev fileContents envStable envNightly s))
      = site_releases s /\
    site_uploads (fst (runner dev fileContents envStable envNightly s))
      = site_uploads s /\
    upstream (fst (runner dev fileContents envStable envNightly s)) = upstream s.
Proof.
  intros Hload Hin Hd Hmv Hne Hvalid. unfold runner. rewrite Hload.
  destruct getLatestStable as [ls|e]; [|now exists e].
  destruct getLatestNightly as [ln|e]; [|now exists e].
  assert (Hbefore : exists s1 r1,
            (if dev then (s, Ok tt) else dirSetupBefore s) = (s1, r1) /\
            upstream s1 = upstream s /\ site_releases s1 = site_releases s /\
            site_uploads s1 = site_uploads s).
  { destruct dev; do 2 eexists; repeat split; reflexivity. }
  destruct Hbefore as (s1 & r1 & Hs1 & Hup & Hrel & Hupl). rewrite Hs1. clear Hs1.
  destruct r1 as [u|e]; [|now exists e].
  destruct dirSetup as [u'|e]; [|now exists e].
  destruct registerQuote as [u''|e]; [|now exists e].
  destruct builds as [|x rest]; [destruct Hin|].
  cbn [JS.keys map length Nat.eqb].
  destruct (stable_throws_on_invalid_min_version (loaded (working s1 stable))
              fileContents ls (x :: rest) name b mv Hin Hd Hmv Hne Hvalid) as [e He].
  rewrite He. now exists e.
Qed.






End RunnerFacts.

(* ===================================================================== *)
(** ** How [doBuild] fails *)
(* ===================================================================== *)

Section PublishFailures.

Context {C : Collaborators}.




End PublishFailures.


(** X17 on a catalog whose only build has the [min_version]
    [not-a-version]. *)
Lemma invalid_min_version_stops_both_channels_witness :
  exists e,
    snd (runner (P := Ref.platform) (C := Ref.collaborators)
           (E := RefSite.broken_surroundings)
           false Ref.files Ref.env Ref.env RefSite.tracked_site) = Throw e /\
    site_releases
      (fst (runner (P := Ref.platform) (C := Ref.collaborators)
              (E := RefSite.broken_surroundings)
              false Ref.files Ref.env Ref.env RefSite.tracked_site))
    = site_releases RefSite.tracked_site /\
    site_uploads
      (fst (runner (P := Ref.platform) (C := Ref.collaborators)
              (E := RefSite.broken_surroundings)
              false Ref.files Ref.env Ref.env RefSite.tracked_site))
    = site_uploads RefSite.tracked_site /\
    upstream
      (fst (runner (P := Ref.platform) (C := Ref.collaborators)
              (E := RefSite.broken_surroundings)
              false Ref.files Ref.env Ref.env RefSite.tracked_site))
    = upstream RefSite.tracked_site.
Proof.
  apply (@invalid_min_version_stops_both_channels Ref.platform Ref.collaborators
           RefSite.broken_surroundings false Ref.files Ref.env Ref.env
           RefSite.tracked_site
           [("builds/a.json", Ref.build_def None None (Some "not-a-version"))]
           "builds/a.json" (Ref.build_def None None (Some "not-a-version"))
           "not-a-version").
  - reflexivity.
  - now left.
  - reflexivity.
  - reflexivity.
  - discriminate.
  - reflexivity.
Defined.


